(** * prune-github-images: retention policy and cleanup orchestrator

    A shallow embedding of [src/main.py] (class [GithubPackageCleaner])
    and the properties of its retention decision and of its deletion loop.

    Layout:
    - [Py]      : the Python values the program handles (decoded JSON),
                  exceptions, subscripting, truthiness, iteration;
    - [Re]      : the fragment of Python's [re] needed by [TAMP_TAG];
    - [Datetime]: instants, [timedelta(days=30)], and a model of
                  [datetime.strptime] for the format used by the program;
    - [Cleaner] : the methods of [GithubPackageCleaner], over an abstract
                  registry and clock, with the trace of remote calls;
    - [Sim]     : a small scripted registry, used for concrete runs. *)

From Stdlib Require Import List String Ascii ZArith Bool Lia.
Import ListNotations.

Set Warnings "-register-all".

Open Scope string_scope.
Open Scope Z_scope.

(* ================================================================== *)
(** ** Python values, exceptions and the operations used on them *)

Module Py.

(** Values produced by decoding a JSON response body.  A [dict] is kept as
    an association list in insertion order; subscripting takes the first
    binding of a key.  Strings are sequences of bytes (UTF-8). *)
Inductive json : Type :=
| JNull
| JBool (b : bool)
| JInt (n : Z)
| JStr (s : string)
| JList (l : list json)
| JDict (d : list (string * json)).

(** The exceptions that can escape from the program.  [GithubException]
    stands for whatever [requestJsonAndCheck] raises (transport failure,
    authentication rejection, HTTP status >= 400). *)
Inductive exn : Type :=
| KeyError (key : json)
| IndexError
| TypeError
| ValueError
| AttributeError
| OverflowError
| GithubException (status : Z).

Definition result (A : Type) : Type := (exn + A)%type.

Definition Ok {A} (a : A) : result A := inr a.
Definition Err {A} (e : exn) : result A := inl e.

Definition rbind {A B} (r : result A) (k : A -> result B) : result B :=
  match r with
  | inl e => inl e
  | inr a => k a
  end.

Definition is_ok {A} (r : result A) : bool :=
  match r with inr _ => true | inl _ => false end.

Fixpoint lookup (key : string) (d : list (string * json)) : option json :=
  match d with
  | [] => None
  | (k, v) :: d' => if String.eqb k key then Some v else lookup key d'
  end.

(** [obj[key]] with a string key. *)
Definition getitem (obj : json) (key : string) : result json :=
  match obj with
  | JDict d =>
      match lookup key d with
      | Some v => Ok v
      | None => Err (KeyError (JStr key))
      end
  | _ => Err TypeError
  end.

(** [bool(obj)], as used by [not obj]. *)
Definition truthy (obj : json) : bool :=
  match obj with
  | JNull => false
  | JBool b => b
  | JInt n => negb (n =? 0)
  | JStr s => negb (String.eqb s "")
  | JList l => match l with [] => false | _ => true end
  | JDict d => match d with [] => false | _ => true end
  end.

(** [len(obj)]. *)
Definition len (obj : json) : result Z :=
  match obj with
  | JStr s => Ok (Z.of_nat (String.length s))
  | JList l => Ok (Z.of_nat (List.length l))
  | JDict d => Ok (Z.of_nat (List.length d))
  | _ => Err TypeError
  end.

(** [obj[0]]. *)
Definition getitem0 (obj : json) : result json :=
  match obj with
  | JList (x :: _) => Ok x
  | JList [] => Err IndexError
  | JStr (String c _) => Ok (JStr (String c ""))
  | JStr EmptyString => Err IndexError
  | JDict d =>
      (* the keys of a decoded JSON object are strings, never the integer 0 *)
      Err (KeyError (JInt 0))
  | _ => Err TypeError
  end.

(** The elements visited by [for x in obj]. *)
Definition iter (obj : json) : result (list json) :=
  match obj with
  | JList l => Ok l
  | JDict d => Ok (map (fun kv => JStr (fst kv)) d)
  | JStr s => Ok (map (fun c => JStr (String c "")) (list_ascii_of_string s))
  | _ => Err TypeError
  end.

(** [s.startswith(prefix)] on strings. *)
Fixpoint startswith (s prefix : string) {struct prefix} : bool :=
  match prefix with
  | EmptyString => true
  | String p prefix' =>
      match s with
      | EmptyString => false
      | String c s' => Ascii.eqb c p && startswith s' prefix'
      end
  end.

(** [obj.startswith(prefix)] on a decoded value: only [str] has the method. *)
Definition startswith_method (obj : json) (prefix : string) : result bool :=
  match obj with
  | JStr s => Ok (startswith s prefix)
  | _ => Err AttributeError
  end.

End Py.
Export Py.

Declare Scope result_scope.
Delimit Scope result_scope with result.
Notation "x <- e ;; k" := (rbind e (fun x => k))
  (at level 100, e at next level, right associativity) : result_scope.

(* ================================================================== *)
(** ** The fragment of [re] used by [TAMP_TAG] *)

Module Re.

Inductive atom : Type :=
| Chr (c : ascii)      (* a literal character *)
| AnyChar.             (* [.] : any character but a newline *)

(** Patterns.  [Star] is the greedy star of a one-character atom, the only
    repetition the program's pattern has. *)
Inductive regex : Type :=
| Eps
| Atom (a : atom)
| Star (a : atom)
| Bol                  (* [^] *)
| Eol                  (* [$] : at the end, or before a final newline *)
| Cat (r1 r2 : regex)
| Alt (r1 r2 : regex).

Definition newline : ascii := "010"%char.

Definition atom_ok (a : atom) (c : ascii) : bool :=
  match a with
  | Chr c' => Ascii.eqb c c'
  | AnyChar => negb (Ascii.eqb c newline)
  end.

(** Greedy repetition: the longest run first, then shorter ones. *)
Fixpoint star (a : atom) (pos : nat) (s : string) : list (nat * string) :=
  match s with
  | EmptyString => [(pos, s)]
  | String c s' =>
      (if atom_ok a c then star a (S pos) s' else []) ++ [(pos, s)]
  end.

Definition at_eol (s : string) : bool :=
  match s with
  | EmptyString => true
  | String c EmptyString => Ascii.eqb c newline
  | _ => false
  end.

(** The backtracking matcher: all the ways of matching [r] at offset [pos]
    with [s] left to read, in the order the engine tries them, each given
    by the offset reached and the text left. *)
Fixpoint run (r : regex) (pos : nat) (s : string) : list (nat * string) :=
  match r with
  | Eps => [(pos, s)]
  | Atom a =>
      match s with
      | String c s' => if atom_ok a c then [(S pos, s')] else []
      | EmptyString => []
      end
  | Star a => star a pos s
  | Bol => if Nat.eqb pos 0 then [(pos, s)] else []
  | Eol => if at_eol s then [(pos, s)] else []
  | Cat r1 r2 => flat_map (fun ps => run r2 (fst ps) (snd ps)) (run r1 pos s)
  | Alt r1 r2 => run r1 pos s ++ run r2 pos s
  end.

(** [pattern.match(s)]: the match anchored at offset 0 found first, as the
    offset where it ends; [None] when there is none. *)
Definition re_match (r : regex) (s : string) : option nat :=
  match run r 0 s with
  | [] => None
  | (e, _) :: _ => Some e
  end.

(** A literal word. *)
Fixpoint lit (w : string) : regex :=
  match w with
  | EmptyString => Eps
  | String c w' => Cat (Atom (Chr c)) (lit w')
  end.

End Re.

(** [TAMP_TAG = re.compile(r"^(temp|poc|feat|dev|debug)-.*$")] *)
Definition TAMP_TAG : Re.regex :=
  Re.Cat Re.Bol
    (Re.Cat
       (Re.Alt (Re.lit "temp")
          (Re.Alt (Re.lit "poc")
             (Re.Alt (Re.lit "feat")
                (Re.Alt (Re.lit "dev") (Re.lit "debug")))))
       (Re.Cat (Re.Atom (Re.Chr "-"))
          (Re.Cat (Re.Star Re.AnyChar) Re.Eol))).

(** [TAMP_TAG.match(tag)]: a [TypeError] unless [tag] is a string. *)
Definition TAMP_TAG_match (tag : json) : result (option nat) :=
  match tag with
  | JStr s => Ok (Re.re_match TAMP_TAG s)
  | _ => Err TypeError
  end.

Definition is_not_None {A} (o : option A) : bool :=
  match o with Some _ => true | None => false end.

(** [GithubPackageCleaner.is_tags_safe_to_delete] (it does not use [self]). *)
Definition is_tags_safe_to_delete (tags : json) : result bool :=
  if negb (truthy tags) then Ok true
  else
    (n <- len tags ;;
     if n =? 1 then
       (tag <- getitem0 tags ;;
        m <- TAMP_TAG_match tag ;;
        Ok (is_not_None m))
     else Ok false)%result.

(* ================================================================== *)
(** ** Instants, [timedelta] and [datetime.strptime] *)

Module Datetime.

(** A [datetime] in UTC, as the number of microseconds since
    [datetime.min] = 0001-01-01T00:00:00.  On values of one time zone
    Python's [<] is the order of the instants. *)
Definition datetime : Type := Z.

Definition is_leap (y : Z) : bool :=
  (y mod 4 =? 0) && (negb (y mod 100 =? 0) || (y mod 400 =? 0)).

Definition days_before_year (y : Z) : Z :=
  let p := y - 1 in p * 365 + p / 4 - p / 100 + p / 400.

Definition days_in_month (y m : Z) : Z :=
  if m =? 2 then (if is_leap y then 29 else 28)
  else if (m =? 4) || (m =? 6) || (m =? 9) || (m =? 11) then 30
  else 31.

Definition days_before_month (y m : Z) : Z :=
  fold_right Z.add 0
    (map (days_in_month y) (map Z.of_nat (seq 1 (Z.to_nat (m - 1))))).

(** [date(y, m, d).toordinal()]: 1 for 0001-01-01. *)
Definition ymd2ord (y m d : Z) : Z :=
  days_before_year y + days_before_month y m + d.

Definition between (lo x hi : Z) : bool := (lo <=? x) && (x <=? hi).

Definition us_per_second : Z := 1000000.
Definition us_per_day : Z := 86400 * us_per_second.

(** The constructor [datetime(y, mo, d, h, mi, s, us)]; [None] stands for
    the [ValueError] it raises on a field out of range. *)
Definition make (y mo d h mi s us : Z) : option datetime :=
  if between 1 y 9999 && between 1 mo 12
     && between 1 d (days_in_month y mo)
     && between 0 h 23 && between 0 mi 59 && between 0 s 59
     && between 0 us 999999
  then Some ((ymd2ord y mo d - 1) * us_per_day
             + (h * 3600 + mi * 60 + s) * us_per_second + us)
  else None.

(** [datetime.max] = 9999-12-31T23:59:59.999999 *)
Definition max_instant : datetime :=
  (ymd2ord 9999 12 31) * us_per_day - 1.

(** [timedelta(days=n)] in microseconds. *)
Definition timedelta_days (n : Z) : Z := n * us_per_day.

(** [t - delta]; an [OverflowError] when the result leaves
    [datetime.min .. datetime.max]. *)
Definition sub (t : datetime) (delta : Z) : result datetime :=
  let r := t - delta in
  if between 0 r max_instant then Ok r else Err OverflowError.

(** *** A model of [strptime] at the format ["%Y-%m-%dT%H:%M:%SZ"]

    CPython turns the format into a regular expression, compiled with
    [IGNORECASE], one group per directive:
    [%Y] is [\d\d\d\d], [%m] is [1[0-2]|0[1-9]|[1-9]],
    [%d] is [3[0-1]|[1-2]\d|0[1-9]|[1-9]| [1-9]],
    [%H] is [2[0-3]|[0-1]\d|\d], [%M] is [[0-5]\d|\d],
    [%S] is [6[0-1]|[0-5]\d|\d];
    it takes the first match, rejects text left over after it, and builds
    the [datetime] from the fields.

    The model is for timestamps written in ASCII, where it agrees with
    the library: it reads the digits [0-9] only, whereas the library's
    [\d] and [int] also take the other decimal digits of Unicode.  The
    properties below hold for whatever [strptime] is; this model serves
    the concrete runs, whose timestamps are in ASCII. *)

Definition parser (A : Type) : Type := string -> list (A * string).

Definition pret {A} (a : A) : parser A := fun s => [(a, s)].

Definition pbind {A B} (p : parser A) (k : A -> parser B) : parser B :=
  fun s => flat_map (fun ar => k (fst ar) (snd ar)) (p s).

Definition palt {A} (p q : parser A) : parser A := fun s => (p s ++ q s)%list.

Definition digit_of (c : ascii) : option Z :=
  let n := Z.of_N (N_of_ascii c) in
  if between 48 n 57 then Some (n - 48) else None.

(** One digit in the class [[lo-hi]]. *)
Definition dig (lo hi : Z) : parser Z :=
  fun s =>
    match s with
    | String c s' =>
        match digit_of c with
        | Some v => if between lo v hi then [(v, s')] else []
        | None => []
        end
    | EmptyString => []
    end.

(** A literal character, in either of its two cases. *)
Definition chr2 (c1 c2 : ascii) : parser unit :=
  fun s =>
    match s with
    | String c s' =>
        if Ascii.eqb c c1 || Ascii.eqb c c2 then [(tt, s')] else []
    | EmptyString => []
    end.

Definition chr (c : ascii) : parser unit := chr2 c c.

Definition two (lo1 hi1 lo2 hi2 : Z) : parser Z :=
  pbind (dig lo1 hi1) (fun a => pbind (dig lo2 hi2) (fun b => pret (10 * a + b))).

Definition p_Y : parser Z :=
  pbind (dig 0 9) (fun a => pbind (dig 0 9) (fun b =>
  pbind (dig 0 9) (fun c => pbind (dig 0 9) (fun d =>
  pret (1000 * a + 100 * b + 10 * c + d))))).

Definition p_m : parser Z :=
  palt (two 1 1 0 2) (palt (two 0 0 1 9) (dig 1 9)).

Definition p_d : parser Z :=
  palt (two 3 3 0 1) (palt (two 1 2 0 9) (palt (two 0 0 1 9)
    (palt (dig 1 9) (pbind (chr " ") (fun _ => dig 1 9))))).

Definition p_H : parser Z :=
  palt (two 2 2 0 3) (palt (two 0 1 0 9) (dig 0 9)).

Definition p_M : parser Z := palt (two 0 5 0 9) (dig 0 9).

Definition p_S : parser Z :=
  palt (two 6 6 0 1) (palt (two 0 5 0 9) (dig 0 9)).

Definition fields : Type := (Z * Z * Z * Z * Z * Z)%type.

Definition p_format : parser fields :=
  pbind p_Y (fun y => pbind (chr "-") (fun _ =>
  pbind p_m (fun mo => pbind (chr "-") (fun _ =>
  pbind p_d (fun d => pbind (chr2 "T" "t") (fun _ =>
  pbind p_H (fun h => pbind (chr ":") (fun _ =>
  pbind p_M (fun mi => pbind (chr ":") (fun _ =>
  pbind p_S (fun sec => pbind (chr2 "Z" "z") (fun _ =>
  pret (y, mo, d, h, mi, sec))))))))))))).

Definition iso_format : string := "%Y-%m-%dT%H:%M:%SZ".

(** [datetime.strptime(s, fmt)] for [fmt = iso_format]; [None] stands for
    the [ValueError] raised when [s] does not match, when text is left
    over, or when the fields are not a date and time.  Other formats are
    not modelled. *)
Definition py_strptime (s fmt : string) : option datetime :=
  if String.eqb fmt iso_format then
    match p_format s with
    | [] => None
    | ((y, mo, d, h, mi, sec), rest) :: _ =>
        if String.eqb rest "" then make y mo d h mi sec 0 else None
    end
  else None.

End Datetime.

(* ================================================================== *)
(** ** The outside world: registry requests, clock, output *)

(** The three requests the program sends through
    [self.github._Github__requester.requestJsonAndCheck], on a world [W]
    that they may change.  Each takes the values that the program formats
    into the URL and gives the decoded body, or the exception raised:
    - [list_packages org]:
        [GET /orgs/{org}/packages] with [package_type=container];
    - [list_versions org pkg_name]:
        [GET /orgs/{org}/packages/container/{pkg_name}/versions];
    - [delete_version org pkg_name version_id]:
        [DELETE /orgs/{org}/packages/container/{pkg_name}/versions/{version_id}]. *)
Record Github (W : Type) : Type := {
  list_packages : string -> W -> W * result json;
  list_versions : string -> json -> W -> W * result json;
  delete_version : string -> json -> json -> W -> W * result json
}.
Arguments list_packages {W}.
Arguments list_versions {W}.
Arguments delete_version {W}.

(** The instance state set by [__init__]. *)
Record GithubPackageCleaner (W : Type) : Type := {
  github : Github W;
  org_name : string;
  container_prefix : string
}.
Arguments github {W}.
Arguments org_name {W}.
Arguments container_prefix {W}.

(** What [print] writes. *)
Inductive message : Type :=
| MsgFound (names : list json)               (* the packages found *)
| MsgDeleting (pkg_name version_id : json)   (* deleting a version *)
| MsgDone                                    (* cleanup performed *)
| MsgNothing.                                (* nothing outdated found *)

(** What a run does to the outside, in order; a request is recorded with
    its outcome, a reading of the clock with the instant read. *)
Inductive event : Type :=
| EvPackages (org : string) (r : result json)
| EvVersions (org : string) (pkg_name : json) (r : result json)
| EvDelete (org : string) (pkg_name version_id : json) (r : result json)
| EvNow (t : Datetime.datetime)
| EvPrint (m : message).

(** Computations that change the world, leave a trace and may raise. *)
Definition M (W A : Type) : Type := W -> W * list event * result A.

Definition mret {W A} (a : A) : M W A := fun w => (w, [], Ok a).

Definition mbind {W A B} (m : M W A) (k : A -> M W B) : M W B :=
  fun w =>
    match m w with
    | (w1, t1, inl e) => (w1, t1, inl e)
    | (w1, t1, inr a) =>
        match k a w1 with
        | (w2, t2, r) => (w2, (t1 ++ t2)%list, r)
        end
    end.

Definition lift {W A} (r : result A) : M W A := fun w => (w, [], r).

Definition emit {W} (e : event) : M W unit := fun w => (w, [e], Ok tt).

(** A request: performed on the world and recorded with its outcome. *)
Definition request {W} (op : W -> W * result json)
    (ev : result json -> event) : M W json :=
  fun w => match op w with (w1, r) => (w1, [ev r], r) end.

Definition trace_of {W A} (x : W * list event * result A) : list event :=
  snd (fst x).
Definition result_of {W A} (x : W * list event * result A) : result A :=
  snd x.
Definition world_of {W A} (x : W * list event * result A) : W :=
  fst (fst x).

Declare Scope m_scope.
Delimit Scope m_scope with M.
Notation "x <- e ;; k" := (mbind e (fun x => k))
  (at level 100, e at next level, right associativity) : m_scope.

(* ================================================================== *)
(** ** The methods of [GithubPackageCleaner] *)

(** The comprehension [[x for x in items if cond(x)]]: the condition is
    evaluated on each element in turn and an exception stops it. *)
Fixpoint comprehension_if (cond : json -> result bool) (items : list json)
  : result (list json) :=
  match items with
  | [] => Ok []
  | x :: items' =>
      (b <- cond x ;;
       rest <- comprehension_if cond items' ;;
       Ok (if b then x :: rest else rest))%result
  end.

(** The comprehension [[f(x) for x in items]]. *)
Fixpoint comprehension (f : json -> result json) (items : list json)
  : result (list json) :=
  match items with
  | [] => Ok []
  | x :: items' =>
      (y <- f x ;;
       rest <- comprehension f items' ;;
       Ok (y :: rest))%result
  end.

(** [version["metadata"]["container"]["tags"]], line 60. *)
Definition version_tags (version : json) : result json :=
  (metadata <- getitem version "metadata" ;;
   container <- getitem metadata "container" ;;
   getitem container "tags")%result.

(** The condition of the comprehension of [get_packages], line 43:
    [pkg["name"].startswith(prefix)]. *)
Definition name_test (prefix : string) (pkg : json) : result bool :=
  (name <- getitem pkg "name" ;; startswith_method name prefix)%result.

Section Cleaner.

Context {W : Type}.

(** [datetime.now(timezone.utc)]: a reading of the system clock. *)
Variable datetime_now : W -> W * Datetime.datetime.

(** [datetime.strptime]; [None] stands for its [ValueError]. *)
Variable strptime : string -> string -> option Datetime.datetime.

Definition now_utc : M W Datetime.datetime :=
  fun w => match datetime_now w with (w1, t) => (w1, [EvNow t], Ok t) end.

(** [datetime.strptime(v, "%Y-%m-%dT%H:%M:%SZ").replace(tzinfo=timezone.utc)]:
    a [TypeError] unless [v] is a string, a [ValueError] when it does not
    parse; the fields read are taken as UTC. *)
Definition parse_created_at (v : json) : result Datetime.datetime :=
  match v with
  | JStr s =>
      match strptime s "%Y-%m-%dT%H:%M:%SZ" with
      | Some t => Ok t
      | None => Err ValueError
      end
  | _ => Err TypeError
  end.

(** [get_packages], lines 36-44. *)
Definition get_packages (self : GithubPackageCleaner W) : M W (list json) :=
  (packages <- request (list_packages (github self) (org_name self))
                       (EvPackages (org_name self)) ;;
   items <- lift (iter packages) ;;
   lift (comprehension_if (name_test (container_prefix self)) items))%M.

(** The body of the loop of [get_outdated_versions], lines 56-62: the
    value of the condition that guards [outdated.append(version)].
    [and] does not evaluate its right operand when the left one is false. *)
Definition version_is_outdated (one_month_ago : Datetime.datetime)
    (version : json) : result bool :=
  (s <- getitem version "created_at" ;;
   created_at <- parse_created_at s ;;
   tags <- version_tags version ;;
   if created_at <? one_month_ago
   then is_tags_safe_to_delete tags
   else Ok false)%result.

(** The loop of lines 55-63, on the list [outdated] built so far. *)
Fixpoint outdated_loop (one_month_ago : Datetime.datetime)
    (versions outdated : list json) : result (list json) :=
  match versions with
  | [] => Ok outdated
  | version :: versions' =>
      (b <- version_is_outdated one_month_ago version ;;
       outdated_loop one_month_ago versions'
         (if b then (outdated ++ [version])%list else outdated))%result
  end.

(** [get_outdated_versions], lines 46-65. *)
Definition get_outdated_versions (self : GithubPackageCleaner W)
    (pkg_name : json) : M W (list json) :=
  (versions <- request (list_versions (github self) (org_name self) pkg_name)
                       (EvVersions (org_name self) pkg_name) ;;
   now <- now_utc ;;
   one_month_ago <- lift (Datetime.sub now (Datetime.timedelta_days 30)) ;;
   items <- lift (iter versions) ;;
   lift (outdated_loop one_month_ago items []))%M.

(** [delete_package_version], lines 77-84. *)
Definition delete_package_version (self : GithubPackageCleaner W)
    (pkg_name version_id : json) : M W unit :=
  (_ <- emit (EvPrint (MsgDeleting pkg_name version_id)) ;;
   _ <- request (delete_version (github self) (org_name self) pkg_name version_id)
                (EvDelete (org_name self) pkg_name version_id) ;;
   mret tt)%M.

(** The inner loop of [clean_outdated_packages], lines 95-97; the value is
    [has_outdated] after it. *)
Fixpoint delete_loop (self : GithubPackageCleaner W) (pkg : json)
    (outdated_versions : list json) (has_outdated : bool) : M W bool :=
  match outdated_versions with
  | [] => mret has_outdated
  | version :: rest =>
      (pkg_name <- lift (getitem pkg "name") ;;
       version_id <- lift (getitem version "id") ;;
       _ <- delete_package_version self pkg_name version_id ;;
       delete_loop self pkg rest true)%M
  end.

(** The outer loop of [clean_outdated_packages], lines 93-97. *)
Fixpoint packages_loop (self : GithubPackageCleaner W)
    (packages : list json) (has_outdated : bool) : M W bool :=
  match packages with
  | [] => mret has_outdated
  | pkg :: rest =>
      (pkg_name <- lift (getitem pkg "name") ;;
       outdated_versions <- get_outdated_versions self pkg_name ;;
       has_outdated' <- delete_loop self pkg outdated_versions has_outdated ;;
       packages_loop self rest has_outdated')%M
  end.

(** [clean_outdated_packages], lines 86-102. *)
Definition clean_outdated_packages (self : GithubPackageCleaner W) : M W unit :=
  (packages <- get_packages self ;;
   names <- lift (comprehension (fun p => getitem p "name") packages) ;;
   _ <- emit (EvPrint (MsgFound names)) ;;
   has_outdated <- packages_loop self packages false ;;
   if has_outdated : bool
   then emit (EvPrint MsgDone)
   else emit (EvPrint MsgNothing))%M.

End Cleaner.

(* ================================================================== *)
(** ** The entry point *)

(** [os.environ]: the variables of the process, each bound once. *)
Definition environ : Type := list (string * string).

(** [os.getenv(key)]: [None] when the variable is not set. *)
Fixpoint getenv (env : environ) (key : string) : option string :=
  match env with
  | [] => None
  | (k, v) :: env' => if String.eqb k key then Some v else getenv env' key
  end.

(** [os.getenv(key, default)]: the default stands in for a variable that
    is not set, not for one set to the empty string. *)
Definition getenv_default (env : environ) (key default : string) : string :=
  match getenv env key with
  | Some v => v
  | None => default
  end.

(** [not token] on the value of [os.getenv]: [None] and [""] are falsy. *)
Definition not_token (token : option string) : bool :=
  match token with
  | None => true
  | Some t => String.eqb t ""
  end.

(** [GithubPackageCleaner.__init__], lines 24-34.  [connect token] stands
    for [Github(auth=Auth.Token(token))], the client through which the
    requests are sent; building it sends nothing. *)
Definition __init__ {W} (connect : string -> Github W)
    (token org_name container_prefix : string) : GithubPackageCleaner W := {|
  github := connect token;
  org_name := org_name;
  container_prefix := container_prefix
|}.

(** [main], lines 105-116, on the environment [env]. *)
Definition main {W} (datetime_now : W -> W * Datetime.datetime)
    (strptime : string -> string -> option Datetime.datetime)
    (connect : string -> Github W) (env : environ) : M W unit :=
  let token := getenv env "GITHUB_TOKEN" in
  if not_token token then lift (Err ValueError)
  else
    match token with
    | None => lift (Err ValueError)     (* excluded by the test above *)
    | Some token =>
        let org_name := getenv_default env "GITHUB_ORG_NAME" "any-xi" in
        let container_prefix := getenv_default env "CONTAINER_PREFIX" "writing-" in
        let cleaner := __init__ connect token org_name container_prefix in
        clean_outdated_packages datetime_now strptime cleaner
    end.

(* ================================================================== *)
(** ** Reading a trace *)

(** The deletions requested, as (package name, version id), in order. *)
Fixpoint deletions (tr : list event) : list (json * json) :=
  match tr with
  | [] => []
  | EvDelete _ pkg_name version_id _ :: tr' =>
      (pkg_name, version_id) :: deletions tr'
  | _ :: tr' => deletions tr'
  end.

(** The packages whose versions were requested, in order. *)
Fixpoint listed (tr : list event) : list json :=
  match tr with
  | [] => []
  | EvVersions _ pkg_name _ :: tr' => pkg_name :: listed tr'
  | _ :: tr' => listed tr'
  end.

(** The readings of the clock, in order. *)
Fixpoint clock_reads (tr : list event) : list Datetime.datetime :=
  match tr with
  | [] => []
  | EvNow t :: tr' => t :: clock_reads tr'
  | _ :: tr' => clock_reads tr'
  end.

(** The final reports printed. *)
Fixpoint summaries (tr : list event) : list message :=
  match tr with
  | [] => []
  | EvPrint MsgDone :: tr' => MsgDone :: summaries tr'
  | EvPrint MsgNothing :: tr' => MsgNothing :: summaries tr'
  | _ :: tr' => summaries tr'
  end.

(** The exception a request was answered with, if any. *)
Definition failure_of (ev : event) : option exn :=
  match ev with
  | EvPackages _ (inl e) => Some e
  | EvVersions _ _ (inl e) => Some e
  | EvDelete _ _ _ (inl e) => Some e
  | _ => None
  end.

Definition error_of {A} (r : result A) : option exn :=
  match r with inl e => Some e | inr _ => None end.

(** The retention verdict of one version against a cut-off: [true] is
    "delete"; a version whose evaluation raises has no verdict. *)
Definition verdict_is_delete (strptime : string -> string -> option Datetime.datetime)
    (one_month_ago : Datetime.datetime) (version : json) : bool :=
  match version_is_outdated strptime one_month_ago version with
  | inr true => true
  | _ => false
  end.

(** The versions of a listing with verdict "delete" when the clock reads
    [now], in the order listed. *)
Definition delete_verdicts_at (strptime : string -> string -> option Datetime.datetime)
    (now : Datetime.datetime) (versions : json) : list json :=
  match Datetime.sub now (Datetime.timedelta_days 30), iter versions with
  | inr one_month_ago, inr items =>
      filter (verdict_is_delete strptime one_month_ago) items
  | _, _ => []
  end.

(** The versions with verdict "delete" over a whole trace, as
    (package name, version): each listing answered is judged at the
    reading of the clock that follows it. *)
Fixpoint delete_verdicts (strptime : string -> string -> option Datetime.datetime)
    (tr : list event) : list (json * json) :=
  match tr with
  | [] => []
  | ev :: tr' =>
      match ev, tr' with
      | EvVersions _ pkg_name (inr versions), EvNow now :: _ =>
          (map (pair pkg_name) (delete_verdicts_at strptime now versions)
             ++ delete_verdicts strptime tr')%list
      | _, _ => delete_verdicts strptime tr'
      end
  end.

(** What [delete_package_version] is to be called with for a version
    marked for deletion: its [id], when it has one. *)
Definition target (nv : json * json) : json * result json :=
  (fst nv, getitem (snd nv) "id").

Definition attempted (ni : json * json) : json * result json :=
  (fst ni, Ok (snd ni)).

(** [l1] is an initial segment of [l2]. *)
Definition initial_segment {A} (l1 l2 : list A) : Prop :=
  exists rest, l2 = (l1 ++ rest)%list.

(* ================================================================== *)
(** ** A scripted registry for concrete runs *)

Module Sim.

(** The clock advances by [tick] at each reading; [removed] logs the
    deletions accepted. *)
Record world : Type := {
  clock : Datetime.datetime;
  tick : Z;
  removed : list (json * json)
}.

Record script : Type := {
  packages : result json;
  versions_of : list (string * result json);
  rejected : list Z       (* ids whose deletion the registry refuses *)
}.

Fixpoint assoc {A} (k : string) (l : list (string * A)) : option A :=
  match l with
  | [] => None
  | (k', a) :: l' => if String.eqb k' k then Some a else assoc k l'
  end.

Definition sim_list_versions (sc : script) (pkg_name : json) : result json :=
  match pkg_name with
  | JStr n =>
      match assoc n (versions_of sc) with
      | Some r => r
      | None => Err (GithubException 404)
      end
  | _ => Err (GithubException 404)
  end.

Definition is_rejected (sc : script) (version_id : json) : bool :=
  match version_id with
  | JInt n => existsb (Z.eqb n) (rejected sc)
  | _ => false
  end.

Definition gh (sc : script) : Github world := {|
  list_packages := fun _ w => (w, packages sc);
  list_versions := fun _ pkg_name w => (w, sim_list_versions sc pkg_name);
  delete_version := fun _ pkg_name version_id w =>
    if is_rejected sc version_id then (w, Err (GithubException 500))
    else ({| clock := clock w; tick := tick w;
             removed := (removed w ++ [(pkg_name, version_id)])%list |},
          Ok JNull)
|}.

Definition datetime_now (w : world) : world * Datetime.datetime :=
  ({| clock := clock w + tick w; tick := tick w; removed := removed w |},
   clock w).

Definition cleaner (sc : script) : GithubPackageCleaner world := {|
  github := gh sc;
  org_name := "any-xi";
  container_prefix := "writing-"
|}.

Definition run (sc : script) (w : world) : world * list event * result unit :=
  clean_outdated_packages datetime_now Datetime.py_strptime (cleaner sc) w.

Definition package (id : Z) (name : string) : json :=
  JDict [("id", JInt id); ("name", JStr name); ("version_count", JInt 1)].

Definition version (id : Z) (created_at : string) (tags : list string) : json :=
  JDict [("id", JInt id);
         ("created_at", JStr created_at);
         ("metadata", JDict [("container", JDict [("tags", JList (map JStr tags))])])].

(** 2024-03-01T12:00:00 UTC *)
Definition noon_march_1 : Datetime.datetime :=
  (Datetime.ymd2ord 2024 3 1 - 1) * Datetime.us_per_day
  + 12 * 3600 * Datetime.us_per_second.

Definition start (tick : Z) : world :=
  {| clock := noon_march_1; tick := tick; removed := [] |}.

(** Versions created 40, 5 and 35 days before [noon_march_1]. *)
Definition v1 : json := version 1 "2024-01-21T12:00:00Z" [].
Definition v2 : json := version 2 "2024-02-25T12:00:00Z" ["prod"].
Definition v3 : json := version 3 "2024-01-26T12:00:00Z" ["poc-x"].
(** Created exactly 30 days before [noon_march_1]. *)
Definition v4 : json := version 4 "2024-01-31T12:00:00Z" [].
Definition v5 : json := version 5 "2024-01-31T12:00:00Z" [].
Definition v6 : json := version 6 "2023-12-01T00:00:00Z" [].

Definition three_packages : json :=
  JList [package 10 "writing-api"; package 11 "writing-web"; package 12 "other-svc"].

(** The registry of the end-to-end scenario. *)
Definition scenario : script := {|
  packages := Ok three_packages;
  versions_of := [("writing-api", Ok (JList [v1; v2; v3]));
                  ("writing-web", Ok (JList [v6]));
                  ("other-svc", Ok (JList [v6]))];
  rejected := []
|}.

(** The same registry, refusing to delete version 1. *)
Definition scenario_rejecting_1 : script := {|
  packages := packages scenario;
  versions_of := versions_of scenario;
  rejected := [1]
|}.

(** Two packages holding versions with one and the same creation time and
    tags, exactly 30 days old when the run starts. *)
Definition twins : script := {|
  packages := Ok (JList [package 10 "writing-api"; package 11 "writing-web"]);
  versions_of := [("writing-api", Ok (JList [v4]));
                  ("writing-web", Ok (JList [v5]))];
  rejected := []
|}.

(** A version whose [created_at] is not in the format of the registry. *)
Definition v7 : json := version 7 "2024-01-21 12:00:00" [].

(** A version record without ["container"] under ["metadata"]. *)
Definition v8 : json :=
  JDict [("id", JInt 8);
         ("created_at", JStr "2024-01-21T12:00:00Z");
         ("metadata", JDict [("package_type", JStr "container")])].

Definition scenario_with (v : json) : script := {|
  packages := packages scenario;
  versions_of := [("writing-api", Ok (JList [v1; v; v3]));
                  ("writing-web", Ok (JList [v6]))];
  rejected := []
|}.

(** The cut-off of a run whose clock reads [noon_march_1]. *)
Definition cutoff : Datetime.datetime :=
  noon_march_1 - Datetime.timedelta_days 30.

(** The end-to-end scenario, with a clock standing still. *)
Definition complete_run : world * list event * result unit :=
  run scenario (start 0).

(** The same with the deletion of version 1 refused. *)
Definition refused_run : world * list event * result unit :=
  run scenario_rejecting_1 (start 0).

(** The twins, with a clock that advances by one second at each reading. *)
Definition twins_run : world * list event * result unit :=
  run twins (start 1000000).

Definition refusal : exn := GithubException 500.

(** A cleaner on a script with a prefix of one's choice. *)
Definition cleaner_with (sc : script) (prefix : string)
  : GithubPackageCleaner world := {|
  github := gh sc;
  org_name := "any-xi";
  container_prefix := prefix
|}.

(** A registry that rejects the credentials. *)
Definition unauthorized : script := {|
  packages := Err (GithubException 401);
  versions_of := [];
  rejected := []
|}.

(** A registry whose list of packages holds a record without a name. *)
Definition nameless : json := JDict [("id", JInt 13)].

Definition scenario_nameless : script := {|
  packages := Ok (JList [package 10 "writing-api"; nameless]);
  versions_of := versions_of scenario;
  rejected := []
|}.

(** A registry with no package of the prefix. *)
Definition scenario_others : script := {|
  packages := Ok (JList [package 12 "other-svc"]);
  versions_of := versions_of scenario;
  rejected := []
|}.

(** The registry of the scenario, failing to list the versions of
    [writing-web]. *)
Definition scenario_web_down : script := {|
  packages := packages scenario;
  versions_of := [("writing-api", Ok (JList [v1; v2; v3]));
                  ("writing-web", Err (GithubException 502))];
  rejected := []
|}.

(** An old untagged version without an id. *)
Definition v9 : json :=
  JDict [("created_at", JStr "2023-12-01T00:00:00Z");
         ("metadata", JDict [("container", JDict [("tags", JList [])])])].

(** An old version whose one tag is a number: its evaluation raises once
    the version is older than the cut-off, and not before. *)
Definition v10 : json :=
  JDict [("id", JInt 10);
         ("created_at", JStr "2024-01-21T12:00:00Z");
         ("metadata", JDict [("container", JDict [("tags", JList [JInt 5])])])].

(** An environment with a token and nothing else. *)
Definition token_only : environ := [("GITHUB_TOKEN", "ghp_example")].

End Sim.

(* ================================================================== *)
(** ** The shape of a disposable tag, in the words of the specification *)

(** [strip_prefix p s]: what follows [p] in [s], when [s] begins with [p]
    (compared character by character, so in a case-sensitive way). *)
Fixpoint strip_prefix (p s : string) : option string :=
  match p with
  | EmptyString => Some s
  | String a p' =>
      match s with
      | EmptyString => None
      | String c s' => if Ascii.eqb c a then strip_prefix p' s' else None
      end
  end.

(** No newline, except possibly as the very last character. *)
Fixpoint single_line (s : string) : bool :=
  match s with
  | EmptyString => true
  | String c s' =>
      if Ascii.eqb c Re.newline then String.eqb s' "" else single_line s'
  end.

Definition disposable_prefixes : list string :=
  ["temp"; "poc"; "feat"; "dev"; "debug"].

(** One of the five prefixes, a hyphen, and a suffix up to the end. *)
Definition disposable (tag : string) : bool :=
  existsb
    (fun p =>
       match strip_prefix (p ++ "-") tag with
       | Some rest => single_line rest
       | None => false
       end)
    disposable_prefixes.

Definition nonempty {A} (l : list A) : bool :=
  match l with [] => false | _ => true end.

(** What follows the alternation in [TAMP_TAG]: [-.*$]. *)
Definition TAMP_TAG_tail : Re.regex :=
  Re.Cat (Re.Atom (Re.Chr "-")) (Re.Cat (Re.Star Re.AnyChar) Re.Eol).

(* ================================================================== *)
(** ** Predicates on records and traces used in the statements *)

(** A package record with a string under ["name"]. *)
Definition well_formed_package (pkg : json) : Prop :=
  exists s, getitem pkg "name" = Ok (JStr s).

(** The test of [get_packages] on a package record, as a boolean. *)
Definition name_starts_with (prefix : string) (pkg : json) : bool :=
  match getitem pkg "name" with
  | inr (JStr s) => startswith s prefix
  | _ => false
  end.

(** The names of package records, in order. *)
Definition package_names (pkgs : list json) : list json :=
  flat_map
    (fun pkg => match getitem pkg "name" with inr n => [n] | inl _ => [] end)
    pkgs.

(** The dictionary [obj] has no entry for [key]. *)
Definition lacks_key (obj : json) (key : string) : Prop :=
  exists d, obj = JDict d /\ lookup key d = None.

(** The version record lacks ["metadata"], or its metadata lacks
    ["container"], or that lacks ["tags"]. *)
Definition lacks_tags (version : json) : Prop :=
  lacks_key version "metadata"
  \/ (exists metadata, getitem version "metadata" = Ok metadata
        /\ (lacks_key metadata "container"
            \/ exists container, getitem metadata "container" = Ok container
                 /\ lacks_key container "tags")).

(** The result of [get_outdated_versions] once the listing is answered
    with [versions] and the clock read as [now]. *)
Definition outdated_at (strptime : string -> string -> option Datetime.datetime)
    (now : Datetime.datetime) (versions : json) : result (list json) :=
  (one_month_ago <- Datetime.sub now (Datetime.timedelta_days 30) ;;
   items <- iter versions ;;
   outdated_loop strptime one_month_ago items [])%result.

(** A failed request is the last event of the trace, and its exception is
    what the computation raises. *)
Fixpoint stops_at_failure (tr : list event) (err : option exn) : Prop :=
  match tr with
  | [] => True
  | ev :: tr' =>
      (forall e, failure_of ev = Some e -> tr' = [] /\ err = Some e)
      /\ stops_at_failure tr' err
  end.

(** Nothing but deletions and their announcements among the events. *)
Definition quiet (tr : list event) : Prop :=
  Forall (fun ev => match ev with
                    | EvVersions _ _ _ | EvNow _ | EvPackages _ _ => False
                    | EvPrint MsgDone | EvPrint MsgNothing => False
                    | _ => True
                    end) tr.

(** The listings of versions that were answered, in order. *)
Fixpoint answered (tr : list event) : list json :=
  match tr with
  | [] => []
  | EvVersions _ _ (inr versions) :: tr' => versions :: answered tr'
  | _ :: tr' => answered tr'
  end.

Definition delete_succeeded (ev : event) : Prop :=
  match ev with
  | EvDelete _ _ _ (inl _) => False
  | _ => True
  end.

(** A version record as the registry documents it: a [created_at] that
    parses, and under [metadata.container.tags] either nothing ([None])
    or a list of strings. *)
Definition well_formed_version
    (strptime : string -> string -> option Datetime.datetime)
    (version : json) : Prop :=
  exists s created_at tags,
    getitem version "created_at" = Ok (JStr s)
    /\ strptime s "%Y-%m-%dT%H:%M:%SZ" = Some created_at
    /\ version_tags version = Ok tags
    /\ (tags = JNull \/ exists ts : list string, tags = JList (map JStr ts)).

(** The organization a request is addressed to. *)
Definition event_org (ev : event) : option string :=
  match ev with
  | EvPackages o _ => Some o
  | EvVersions o _ _ => Some o
  | EvDelete o _ _ _ => Some o
  | _ => None
  end.

(** Every request of the trace is addressed to [org]. *)
Definition addressed_to (org : string) (tr : list event) : Prop :=
  Forall (fun ev => forall o, event_org ev = Some o -> o = org) tr.

(** The requests for the list of packages, in order. *)
Fixpoint package_requests (tr : list event) : list (result json) :=
  match tr with
  | [] => []
  | EvPackages _ r :: tr' => r :: package_requests tr'
  | _ :: tr' => package_requests tr'
  end.

(** Every deletion requested comes right after its announcement:
    [announced prev tr] reads [tr] knowing the event [prev] before it. *)
Fixpoint announced (prev : option event) (tr : list event) : Prop :=
  match tr with
  | [] => True
  | ev :: tr' =>
      match ev with
      | EvDelete _ n i _ => prev = Some (EvPrint (MsgDeleting n i))
      | _ => True
      end
      /\ announced (Some ev) tr'
  end.

(** The last event of [tr], or [prev] when [tr] is empty. *)
Definition last_event (prev : option event) (tr : list event) : option event :=
  fold_left (fun _ ev => Some ev) tr prev.

(* ================================================================== *)
(** ** The shapes of a run

    The traces and results that the loops of [clean_outdated_packages] can
    produce, whatever the registry answers: one rule per way through the
    code.  The lemmas [delete_loop_sound], [packages_loop_sound] and
    [clean_outdated_packages_sound] show that every run follows them. *)

(** The packages kept by the comprehension of [get_packages]. *)
Definition selected (prefix : string) (packages : json) : result (list json) :=
  (items <- iter packages ;; comprehension_if (name_test prefix) items)%result.

Section Shapes.

Variable strptime : string -> string -> option Datetime.datetime.
Variable org : string.
Variable prefix : string.

(** The loop of lines 95-97 on the outdated versions of package [name],
    entered with the flag [has_outdated]. *)
Inductive deleting (name : json) :
  list json -> bool -> list event -> result bool -> Prop :=
| deleting_end (h : bool) :
    deleting name [] h [] (Ok h)
| deleting_no_id (v : json) (rest : list json) (h : bool) (e : exn) :
    getitem v "id" = inl e ->
    deleting name (v :: rest) h [] (inl e)
| deleting_refused (v : json) (rest : list json) (h : bool) (id : json) (e : exn) :
    getitem v "id" = inr id ->
    deleting name (v :: rest) h
      [EvPrint (MsgDeleting name id); EvDelete org name id (inl e)] (inl e)
| deleting_next (v : json) (rest : list json) (h : bool) (id answer : json)
    (tr : list event) (r : result bool) :
    getitem v "id" = inr id ->
    deleting name rest true tr r ->
    deleting name (v :: rest) h
      (EvPrint (MsgDeleting name id) :: EvDelete org name id (inr answer) :: tr) r.

(** The loop of lines 93-97 on the packages selected. *)
Inductive processing :
  list json -> bool -> list event -> result bool -> Prop :=
| processing_end (h : bool) :
    processing [] h [] (Ok h)
| processing_no_name (pkg : json) (rest : list json) (h : bool) (e : exn) :
    getitem pkg "name" = inl e ->
    processing (pkg :: rest) h [] (inl e)
| processing_listing_failed (pkg : json) (rest : list json) (h : bool)
    (name : json) (e : exn) :
    getitem pkg "name" = inr name ->
    processing (pkg :: rest) h [EvVersions org name (inl e)] (inl e)
| processing_evaluation_failed (pkg : json) (rest : list json) (h : bool)
    (name versions : json) (now : Datetime.datetime) (e : exn) :
    getitem pkg "name" = inr name ->
    outdated_at strptime now versions = inl e ->
    processing (pkg :: rest) h
      [EvVersions org name (inr versions); EvNow now] (inl e)
| processing_deletion_failed (pkg : json) (rest : list json) (h : bool)
    (name versions : json) (now : Datetime.datetime) (outdated : list json)
    (tr : list event) (e : exn) :
    getitem pkg "name" = inr name ->
    outdated_at strptime now versions = inr outdated ->
    deleting name outdated h tr (inl e) ->
    processing (pkg :: rest) h
      (EvVersions org name (inr versions) :: EvNow now :: tr) (inl e)
| processing_next (pkg : json) (rest : list json) (h h' : bool)
    (name versions : json) (now : Datetime.datetime) (outdated : list json)
    (tr tr' : list event) (r : result bool) :
    getitem pkg "name" = inr name ->
    outdated_at strptime now versions = inr outdated ->
    deleting name outdated h tr (inr h') ->
    processing rest h' tr' r ->
    processing (pkg :: rest) h
      (EvVersions org name (inr versions) :: EvNow now :: tr ++ tr') r.

(** [clean_outdated_packages] as a whole. *)
Inductive running : list event -> result unit -> Prop :=
| running_no_packages (e : exn) :
    running [EvPackages org (inl e)] (inl e)
| running_selection_failed (packages : json) (e : exn) :
    selected prefix packages = inl e ->
    running [EvPackages org (inr packages)] (inl e)
| running_aborted (packages : json) (pkgs : list json) (tr : list event)
    (e : exn) :
    selected prefix packages = inr pkgs ->
    processing pkgs false tr (inl e) ->
    running
      (EvPackages org (inr packages)
         :: EvPrint (MsgFound (package_names pkgs)) :: tr) (inl e)
| running_completed (packages : json) (pkgs : list json) (tr : list event)
    (h : bool) :
    selected prefix packages = inr pkgs ->
    processing pkgs false tr (inr h) ->
    running
      (EvPackages org (inr packages)
         :: EvPrint (MsgFound (package_names pkgs))
         :: tr ++ [EvPrint (if h then MsgDone else MsgNothing)]) (inr tt).

End Shapes.

(* ================================================================== *)
(** * Properties *)

(** ** The pattern [TAMP_TAG] *)

Module ReFacts.
Import Re.

Lemma nonempty_app {A} (l1 l2 : list A) :
  nonempty (l1 ++ l2) = nonempty l1 || nonempty l2.
Proof. destruct l1; reflexivity. Qed.

Lemma is_not_None_match (r : regex) (s : string) :
  is_not_None (re_match r s) = nonempty (run r 0 s).
Proof.
  unfold re_match. destruct (run r 0 s) as [|[e rest] l]; reflexivity.
Qed.

Lemma strip_prefix_app (a b s : string) :
  strip_prefix (a ++ b) s =
  match strip_prefix a s with
  | Some r => strip_prefix b r
  | None => None
  end.
Proof.
  revert s. induction a as [|c a IH]; intros s; simpl.
  - reflexivity.
  - destruct s as [|d s]; [reflexivity|].
    destruct (Ascii.eqb d c); [apply IH | reflexivity].
Qed.

(** A literal word matches in one way at most: by reading itself. *)
Lemma run_lit (w : string) (pos : nat) (s : string) :
  run (lit w) pos s =
  match strip_prefix w s with
  | Some rest => [((pos + String.length w)%nat, rest)]
  | None => []
  end.
Proof.
  revert pos s. induction w as [|c w IH]; intros pos s; simpl.
  - now rewrite Nat.add_0_r.
  - destruct s as [|d s]; [reflexivity|]. simpl.
    destruct (Ascii.eqb d c); simpl; [|reflexivity].
    rewrite app_nil_r, IH.
    destruct (strip_prefix w s); [|reflexivity].
    now rewrite Nat.add_succ_r.
Qed.

(** [.*$] succeeds exactly on what is left of a single line. *)
Lemma star_then_eol (pos : nat) (s : string) :
  nonempty (flat_map (fun ps => run Eol (fst ps) (snd ps)) (star AnyChar pos s))
  = single_line s.
Proof.
  revert pos. induction s as [|c s IH]; intros pos.
  - reflexivity.
  - cbn [star single_line atom_ok].
    rewrite flat_map_app, nonempty_app.
    destruct (Ascii.eqb c newline) eqn:Hc; cbn [negb].
    + cbn [flat_map run fst snd at_eol app]. rewrite Hc.
      destruct s; reflexivity.
    + rewrite IH. cbn [flat_map run fst snd at_eol app]. rewrite Hc.
      destruct s; cbn; rewrite ?orb_false_r; reflexivity.
Qed.

Lemma run_tail (pos : nat) (s : string) :
  nonempty (run TAMP_TAG_tail pos s) =
  match strip_prefix "-" s with
  | Some rest => single_line rest
  | None => false
  end.
Proof.
  unfold TAMP_TAG_tail. cbn [run strip_prefix].
  destruct s as [|c s]; [reflexivity|].
  cbn [atom_ok]. destruct (Ascii.eqb c "-"); [|reflexivity].
  cbn [flat_map fst snd]. rewrite app_nil_r. apply star_then_eol.
Qed.

Lemma word_then_tail (w : string) (pos : nat) (s : string) :
  nonempty (flat_map (fun ps => run TAMP_TAG_tail (fst ps) (snd ps)) (run (lit w) pos s))
  = match strip_prefix (w ++ "-") s with
    | Some rest => single_line rest
    | None => false
    end.
Proof.
  rewrite run_lit, strip_prefix_app.
  destruct (strip_prefix w s) as [rest|]; [|reflexivity].
  cbn [flat_map fst snd]. rewrite app_nil_r. apply run_tail.
Qed.

Lemma strip_prefix_Some (p s rest : string) :
  strip_prefix p s = Some rest <-> s = p ++ rest.
Proof.
  revert s. induction p as [|a p IH]; intros s; cbn.
  - split; [intros H; now injection H as -> | now intros ->].
  - destruct s as [|c s]; [split; discriminate|].
    destruct (Ascii.eqb c a) eqn:Hca.
    + apply Ascii.eqb_eq in Hca. subst c. rewrite IH.
      split; [now intros -> | intros H; now injection H].
    + split; [discriminate|]. intros H. injection H as -> _.
      now rewrite Ascii.eqb_refl in Hca.
Qed.

Lemma startswith_strip (s p : string) :
  startswith s p = match strip_prefix p s with Some _ => true | None => false end.
Proof.
  revert s. induction p as [|a p IH]; intros s; cbn; [reflexivity|].
  destruct s as [|c s]; [reflexivity|].
  destruct (Ascii.eqb c a); [apply IH | reflexivity].
Qed.

(** [startswith] is the plain prefix relation on strings. *)
Lemma startswith_iff (s p : string) :
  startswith s p = true <-> exists rest, s = p ++ rest.
Proof.
  rewrite startswith_strip. split.
  - destruct (strip_prefix p s) as [rest|] eqn:H; [|discriminate].
    intros _. exists rest. now apply strip_prefix_Some.
  - intros [rest H]. apply strip_prefix_Some in H. now rewrite H.
Qed.

Lemma disposable_iff (tag : string) :
  disposable tag = true <->
  exists p rest, In p disposable_prefixes
                 /\ tag = (p ++ "-") ++ rest /\ single_line rest = true.
Proof.
  unfold disposable. rewrite existsb_exists. split.
  - intros (p & Hp & H).
    destruct (strip_prefix (p ++ "-") tag) as [rest|] eqn:Hs; [|discriminate].
    exists p, rest. apply strip_prefix_Some in Hs. auto.
  - intros (p & rest & Hp & Ht & Hl). exists p. split; [exact Hp|].
    apply strip_prefix_Some in Ht. now rewrite Ht.
Qed.

(** [TAMP_TAG.match(tag) is not None] says that [tag] is disposable. *)
Lemma TAMP_TAG_disposable (tag : string) :
  is_not_None (re_match TAMP_TAG tag) = disposable tag.
Proof.
  rewrite is_not_None_match. unfold TAMP_TAG, disposable, disposable_prefixes.
  change (Cat (Atom (Chr "-")) (Cat (Star AnyChar) Eol)) with TAMP_TAG_tail.
  cbn [run Nat.eqb flat_map fst snd existsb]. rewrite app_nil_r.
  rewrite !flat_map_app, !nonempty_app, !word_then_tail.
  now rewrite orb_false_r, !orb_assoc.
Qed.

End ReFacts.

(** ** The tag rule and the verdict of one version *)

(** C3. [is_tags_safe_to_delete] by the number of tags: true for no tag;
    for one tag, true exactly when [TAMP_TAG] matches it, that is when the
    tag is one of the five prefixes, a hyphen and a suffix up to the end
    (compared case-sensitively); false for two tags or more, whatever
    they are. *)
Theorem is_tags_safe_to_delete_by_count :
  is_tags_safe_to_delete (JList []) = Ok true
  /\ (forall tag : string,
        is_tags_safe_to_delete (JList [JStr tag])
        = Ok (is_not_None (Re.re_match TAMP_TAG tag)))
  /\ (forall tag : string,
        is_not_None (Re.re_match TAMP_TAG tag) = disposable tag)
  /\ (forall tag : string,
        is_not_None (Re.re_match TAMP_TAG tag) = true <->
        exists p rest, In p ["temp"; "poc"; "feat"; "dev"; "debug"]
                       /\ tag = (p ++ "-") ++ rest
                       /\ single_line rest = true)
  /\ (forall (t1 t2 : json) (ts : list json),
        is_tags_safe_to_delete (JList (t1 :: t2 :: ts)) = Ok false)
  /\ is_tags_safe_to_delete (JList [JStr "tempest-1"]) = Ok false
  /\ is_tags_safe_to_delete (JList [JStr "latest"]) = Ok false
  /\ is_tags_safe_to_delete (JList [JStr "v1.2.3"]) = Ok false
  /\ is_tags_safe_to_delete (JList [JStr "Temp-1"]) = Ok false
  /\ is_tags_safe_to_delete (JList [JStr "a-temp-1"]) = Ok false
  /\ is_tags_safe_to_delete (JList [JStr "temp-2024"]) = Ok true
  /\ is_tags_safe_to_delete (JList [JStr "debug-x"]) = Ok true
  /\ is_tags_safe_to_delete (JList [JStr "temp-1"; JStr "temp-2"]) = Ok false.
Proof.
  split; [reflexivity|].
  split; [intros tag; reflexivity|].
  split; [apply ReFacts.TAMP_TAG_disposable|].
  split.
  { intros tag. rewrite ReFacts.TAMP_TAG_disposable.
    apply ReFacts.disposable_iff. }
  split.
  - intros t1 t2 ts. unfold is_tags_safe_to_delete. cbn [truthy negb len rbind Ok List.length].
    destruct (Z.of_nat (S (S (List.length ts))) =? 1) eqn:H; [|reflexivity].
    apply Z.eqb_eq in H. lia.
  - repeat split; reflexivity.
Qed.

(** C9. An absent tag list ([None]) is safe to delete, like an empty one. *)
Theorem is_tags_safe_to_delete_None :
  is_tags_safe_to_delete JNull = Ok true
  /\ is_tags_safe_to_delete JNull = is_tags_safe_to_delete (JList []).
Proof. split; reflexivity. Qed.

Section VerdictFacts.

Variable strptime : string -> string -> option Datetime.datetime.

Lemma sub_Ok (now delta r : Datetime.datetime) :
  Datetime.sub now delta = Ok r -> r = now - delta.
Proof.
  unfold Datetime.sub.
  destruct (Datetime.between 0 (now - delta) Datetime.max_instant);
    [intros H; injection H; auto | discriminate].
Qed.

Lemma thirty_days : Datetime.timedelta_days 30 = 30 * 86400 * 1000000.
Proof. reflexivity. Qed.

(** The verdict of a version whose fields are there. *)
Lemma version_is_outdated_fields (one_month_ago : Datetime.datetime)
    (version : json) (s : string) (created_at : Datetime.datetime) (tags : json) :
  getitem version "created_at" = Ok (JStr s) ->
  strptime s "%Y-%m-%dT%H:%M:%SZ" = Some created_at ->
  version_tags version = Ok tags ->
  version_is_outdated strptime one_month_ago version
  = if created_at <? one_month_ago then is_tags_safe_to_delete tags else Ok false.
Proof.
  intros Hc Hp Ht. unfold version_is_outdated.
  rewrite Hc. cbn [rbind Ok parse_created_at]. rewrite Hp. cbn [rbind Ok].
  rewrite Ht. reflexivity.
Qed.

Lemma outdated_loop_Ok (one_month_ago : Datetime.datetime)
    (items acc out : list json) :
  outdated_loop strptime one_month_ago items acc = Ok out ->
  out = (acc ++ filter (verdict_is_delete strptime one_month_ago) items)%list.
Proof.
  revert acc. induction items as [|v items IH]; intros acc H; cbn in H.
  - injection H as <-. now rewrite app_nil_r.
  - cbn [filter]. unfold verdict_is_delete at 1.
    destruct (version_is_outdated strptime one_month_ago v) as [e|b];
      cbn in H; [discriminate|].
    apply IH in H. destruct b; [|exact H].
    now rewrite H, <- app_assoc.
Qed.

Lemma outdated_loop_Err (one_month_ago : Datetime.datetime)
    (items acc : list json) (v : json) :
  In v items ->
  is_ok (version_is_outdated strptime one_month_ago v) = false ->
  is_ok (outdated_loop strptime one_month_ago items acc) = false.
Proof.
  revert acc. induction items as [|x items IH]; intros acc Hin Hv.
  - destruct Hin.
  - cbn [outdated_loop].
    destruct (version_is_outdated strptime one_month_ago x) as [e|b] eqn:Hx;
      [reflexivity|]. cbn [rbind].
    destruct Hin as [->|Hin]; [rewrite Hx in Hv; discriminate|].
    now apply IH.
Qed.

Lemma outdated_at_Ok (now : Datetime.datetime) (versions : json) (out : list json) :
  outdated_at strptime now versions = Ok out ->
  out = delete_verdicts_at strptime now versions.
Proof.
  unfold outdated_at, delete_verdicts_at.
  destruct (Datetime.sub now (Datetime.timedelta_days 30)) as [e|oma];
    [discriminate|]. cbn [rbind].
  destruct (iter versions) as [e|items]; [discriminate|]. cbn [rbind].
  intros H. now apply outdated_loop_Ok in H.
Qed.

(** A listing that holds a version whose evaluation raises has no result,
    whatever the clock reads. *)
Lemma outdated_at_Err (now : Datetime.datetime) (versions : json)
    (items : list json) (v : json) :
  iter versions = Ok items -> In v items ->
  (forall one_month_ago,
      is_ok (version_is_outdated strptime one_month_ago v) = false) ->
  is_ok (outdated_at strptime now versions) = false.
Proof.
  intros Hit Hin Hv. unfold outdated_at.
  destruct (Datetime.sub now (Datetime.timedelta_days 30)) as [e|oma];
    [reflexivity|]. cbn [rbind]. rewrite Hit. cbn [rbind Ok].
  eapply outdated_loop_Err; eauto.
Qed.

Lemma unparsable_raises (one_month_ago : Datetime.datetime) (version : json)
    (s : string) :
  getitem version "created_at" = Ok (JStr s) ->
  strptime s "%Y-%m-%dT%H:%M:%SZ" = None ->
  version_is_outdated strptime one_month_ago version = Err ValueError.
Proof.
  intros Hc Hp. unfold version_is_outdated. rewrite Hc.
  cbn [rbind Ok parse_created_at]. now rewrite Hp.
Qed.

Lemma lacks_tags_raises (version : json) :
  lacks_tags version ->
  exists key, version_tags version = Err (KeyError (JStr key))
              /\ (key = "metadata" \/ key = "container" \/ key = "tags").
Proof.
  unfold lacks_tags, lacks_key, version_tags.
  intros [(d & -> & Hd) | (m & Hm & [(d & -> & Hd) | (c & Hc & d & -> & Hd)])].
  - exists "metadata". cbn [getitem]. rewrite Hd. cbn. auto.
  - exists "container". rewrite Hm. cbn [rbind Ok getitem]. rewrite Hd. auto.
  - exists "tags". rewrite Hm. cbn [rbind Ok]. rewrite Hc. cbn [rbind Ok getitem].
    rewrite Hd. auto.
Qed.

Lemma lacks_tags_no_verdict (one_month_ago : Datetime.datetime) (version : json) :
  lacks_tags version ->
  is_ok (version_is_outdated strptime one_month_ago version) = false.
Proof.
  intros H. destruct (lacks_tags_raises version H) as (key & Hk & _).
  unfold version_is_outdated.
  destruct (getitem version "created_at") as [e|s]; [reflexivity|]. cbn [rbind].
  destruct (parse_created_at strptime s) as [e|c]; [reflexivity|]. cbn [rbind].
  now rewrite Hk.
Qed.

End VerdictFacts.

(** C2. The verdict of a version is "delete" exactly when it was created
    strictly before [now - 30 days] and its tags are safe to delete: it is
    the conjunction of the two tests; a version created exactly 30 days
    before [now] is kept whatever its tags; a version not older than 30
    days is kept, and so is one whose tags are not safe. *)
Theorem verdict_is_outdated_and_safe
    (strptime : string -> string -> option Datetime.datetime)
    (now one_month_ago : Datetime.datetime) (version : json) (s : string)
    (created_at : Datetime.datetime) (tags : json) :
  Datetime.sub now (Datetime.timedelta_days 30) = Ok one_month_ago ->
  getitem version "created_at" = Ok (JStr s) ->
  strptime s "%Y-%m-%dT%H:%M:%SZ" = Some created_at ->
  version_tags version = Ok tags ->
  let verdict := version_is_outdated strptime one_month_ago version in
  let cutoff := now - 30 * 86400 * 1000000 in
  one_month_ago = cutoff
  /\ (forall safe, is_tags_safe_to_delete tags = Ok safe ->
        verdict = Ok ((created_at <? cutoff) && safe))
  /\ (verdict = Ok true <->
        created_at < cutoff /\ is_tags_safe_to_delete tags = Ok true)
  /\ (created_at = cutoff -> verdict = Ok false)
  /\ (cutoff <= created_at -> verdict = Ok false)
  /\ (is_tags_safe_to_delete tags = Ok false -> verdict = Ok false).
Proof.
  intros Hsub Hc Hp Ht verdict cutoff.
  assert (Hcut : one_month_ago = cutoff).
  { apply sub_Ok in Hsub. now rewrite thirty_days in Hsub. }
  assert (Hv : verdict
               = if created_at <? cutoff then is_tags_safe_to_delete tags
                 else Ok false).
  { unfold verdict. rewrite <- Hcut.
    now apply version_is_outdated_fields with (s := s). }
  split; [exact Hcut|]. rewrite Hv. clear Hv verdict.
  destruct (created_at <? cutoff) eqn:Hlt.
  - apply Z.ltb_lt in Hlt.
    split; [intros safe ->; reflexivity|].
    split; [split; [intros H; split; assumption | intros [_ H]; exact H]|].
    split; [lia|]. split; [lia|]. intros ->. reflexivity.
  - apply Z.ltb_ge in Hlt.
    split; [intros safe _; reflexivity|].
    split; [split; [discriminate | intros [H _]; lia]|].
    repeat split; reflexivity.
Qed.

(** ** Every run has one of the shapes *)

Section Soundness.

Context {W : Type}.
Variable datetime_now : W -> W * Datetime.datetime.
Variable strptime : string -> string -> option Datetime.datetime.
Variable self : GithubPackageCleaner W.

Lemma get_packages_eq (w : W) :
  get_packages self w =
  match list_packages (github self) (org_name self) w with
  | (w1, inl e) => (w1, [EvPackages (org_name self) (inl e)], inl e)
  | (w1, inr packages) =>
      (w1, [EvPackages (org_name self) (inr packages)], selected (container_prefix self) packages)
  end.
Proof.
  unfold get_packages, mbind, request, lift, selected.
  destruct (list_packages (github self) (org_name self) w) as [w1 [e|packages]];
    [reflexivity|].
  destruct (iter packages) as [e|items]; reflexivity.
Qed.

Lemma get_outdated_versions_eq (pkg_name : json) (w : W) :
  get_outdated_versions datetime_now strptime self pkg_name w =
  match list_versions (github self) (org_name self) pkg_name w with
  | (w1, inl e) => (w1, [EvVersions (org_name self) pkg_name (inl e)], inl e)
  | (w1, inr versions) =>
      match datetime_now w1 with
      | (w2, now) =>
          (w2, [EvVersions (org_name self) pkg_name (inr versions); EvNow now],
           outdated_at strptime now versions)
      end
  end.
Proof.
  unfold get_outdated_versions, mbind, request, lift, now_utc, outdated_at.
  destruct (list_versions (github self) (org_name self) pkg_name w) as [w1 [e|versions]];
    [reflexivity|].
  destruct (datetime_now w1) as [w2 now]. unfold Ok. cbv iota beta.
  destruct (Datetime.sub now (Datetime.timedelta_days 30)) as [e|oma];
    [reflexivity|].
  destruct (iter versions) as [e|items]; reflexivity.
Qed.

Lemma delete_loop_sound (pkg name : json) :
  getitem pkg "name" = Ok name ->
  forall (outdated : list json) (h : bool) (w w' : W) (tr : list event)
         (r : result bool),
    delete_loop self pkg outdated h w = (w', tr, r) ->
    deleting (org_name self) name outdated h tr r.
Proof.
  intros Hname outdated.
  induction outdated as [|v rest IH]; intros h w w' tr r H.
  - injection H as <- <- <-. apply deleting_end.
  - cbn [delete_loop] in H.
    unfold delete_package_version in H.
    unfold mbind, lift, emit, request, mret in H.
    rewrite Hname in H. unfold Ok in H.
    destruct (getitem v "id") as [e|id] eqn:Hid.
    + injection H as <- <- <-. now apply deleting_no_id.
    + destruct (delete_version (github self) (org_name self) name id w) as [w1 [e|answer]].
      * cbn in H. injection H as <- <- <-. now apply deleting_refused.
      * cbn in H.
        destruct (delete_loop self pkg rest true w1) as [[w2 tr2] r2] eqn:Hrest.
        injection H as <- <- <-. cbn.
        apply deleting_next; [assumption|]. eapply IH; eauto.
Qed.

Lemma packages_loop_sound (packages : list json) :
  forall (h : bool) (w w' : W) (tr : list event) (r : result bool),
    packages_loop datetime_now strptime self packages h w = (w', tr, r) ->
    processing strptime (org_name self) packages h tr r.
Proof.
  induction packages as [|pkg rest IH]; intros h w w' tr r H.
  - injection H as <- <- <-. apply processing_end.
  - cbn [packages_loop] in H. unfold mbind at 1 in H. unfold lift at 1 in H.
    destruct (getitem pkg "name") as [e|name] eqn:Hname.
    + injection H as <- <- <-. now apply processing_no_name.
    + unfold mbind at 1 in H. rewrite get_outdated_versions_eq in H.
      destruct (list_versions (github self) (org_name self) name w) as [w1 [e|versions]].
      * injection H as <- <- <-. now apply processing_listing_failed.
      * destruct (datetime_now w1) as [w2 now].
        destruct (outdated_at strptime now versions) as [e|outdated] eqn:Hout.
        -- injection H as <- <- <-. now apply processing_evaluation_failed.
        -- unfold mbind in H.
           destruct (delete_loop self pkg outdated h w2) as [[w3 tr1] [e|h']]
             eqn:Hdel;
             apply (delete_loop_sound pkg name Hname) in Hdel.
           ++ injection H as <- <- <-. cbn.
              eapply processing_deletion_failed; eauto.
           ++ destruct (packages_loop datetime_now strptime self rest h' w3)
                as [[w4 tr2] r2] eqn:Hrest.
              injection H as <- <- <-. cbn.
              eapply processing_next; eauto.
Qed.

(** A package that passed the test of [get_packages] has a name. *)
Lemma selected_names (packages : json) (pkgs : list json) :
  selected (container_prefix self) packages = Ok pkgs ->
  comprehension (fun p => getitem p "name") pkgs = Ok (package_names pkgs).
Proof.
  unfold selected. destruct (iter packages) as [e|items]; [discriminate|].
  cbn [rbind]. revert pkgs.
  induction items as [|x items IH]; intros pkgs H; cbn in H.
  - injection H as <-. reflexivity.
  - unfold name_test at 1 in H.
    destruct (getitem x "name") as [e|n] eqn:Hn; [discriminate|]. cbn in H.
    destruct (startswith_method n (container_prefix self)) as [e|b];
      [discriminate|]. cbn in H.
    destruct (comprehension_if _ items) as [e|rest]; [discriminate|].
    cbn in H. specialize (IH rest eq_refl).
    destruct b; injection H as <-; [|exact IH].
    cbn [comprehension package_names flat_map]. rewrite Hn. cbn [rbind].
    fold (package_names rest). rewrite IH. reflexivity.
Qed.

Lemma clean_outdated_packages_sound (w w' : W) (tr : list event)
    (r : result unit) :
  clean_outdated_packages datetime_now strptime self w = (w', tr, r) ->
  running strptime (org_name self) (container_prefix self) tr r
  /\ exists rest,
       tr = EvPackages (org_name self) (snd (list_packages (github self) (org_name self) w)) :: rest.
Proof.
  unfold clean_outdated_packages. unfold mbind at 1.
  rewrite get_packages_eq.
  destruct (list_packages (github self) (org_name self) w) as [w1 [e|packages]].
  - intros H. injection H as <- <- <-.
    split; [apply running_no_packages | now eexists].
  - destruct (selected (container_prefix self) packages) as [e|pkgs] eqn:Hsel.
    + intros H. injection H as <- <- <-.
      split; [now apply running_selection_failed | now eexists].
    + unfold mbind at 1. unfold lift at 1.
      rewrite (selected_names packages pkgs Hsel). unfold Ok.
      unfold mbind, emit.
      destruct (packages_loop datetime_now strptime self pkgs false w1)
        as [[w2 tr1] [e|h]] eqn:Hloop; apply packages_loop_sound in Hloop.
      * intros H. injection H as <- <- <-. cbn.
        split; [now apply running_aborted | now eexists].
      * intros H.
        assert (Hrun := running_completed strptime (org_name self) (container_prefix self) packages pkgs
                          tr1 h Hsel Hloop).
        destruct h; injection H as <- <- <-; (split; [exact Hrun | now eexists]).
Qed.

(** The same, on the projections of a run. *)
Lemma run_shape (w : W) :
  let x := clean_outdated_packages datetime_now strptime self w in
  running strptime (org_name self) (container_prefix self) (trace_of x) (result_of x)
  /\ exists rest,
       trace_of x
       = EvPackages (org_name self) (snd (list_packages (github self) (org_name self) w)) :: rest.
Proof.
  cbv zeta.
  destruct (clean_outdated_packages datetime_now strptime self w)
    as [[w' tr] r] eqn:H.
  exact (clean_outdated_packages_sound w w' tr r H).
Qed.

End Soundness.

(** ** Reading traces piece by piece *)

Lemma deletions_app (t1 t2 : list event) :
  deletions (t1 ++ t2) = (deletions t1 ++ deletions t2)%list.
Proof.
  induction t1 as [|ev t1 IH]; [reflexivity|].
  destruct ev; cbn; now rewrite IH.
Qed.

Lemma listed_app (t1 t2 : list event) :
  listed (t1 ++ t2) = (listed t1 ++ listed t2)%list.
Proof.
  induction t1 as [|ev t1 IH]; [reflexivity|].
  destruct ev; cbn; now rewrite IH.
Qed.

Lemma clock_reads_app (t1 t2 : list event) :
  clock_reads (t1 ++ t2) = (clock_reads t1 ++ clock_reads t2)%list.
Proof.
  induction t1 as [|ev t1 IH]; [reflexivity|].
  destruct ev; cbn; now rewrite IH.
Qed.

Lemma answered_app (t1 t2 : list event) :
  answered (t1 ++ t2) = (answered t1 ++ answered t2)%list.
Proof.
  induction t1 as [|ev t1 IH]; [reflexivity|].
  destruct ev as [? ?|? ? [?|?]|? ? ? ?|?|?]; cbn; now rewrite IH.
Qed.

Lemma summaries_app (t1 t2 : list event) :
  summaries (t1 ++ t2) = (summaries t1 ++ summaries t2)%list.
Proof.
  induction t1 as [|ev t1 IH]; [reflexivity|].
  destruct ev as [? ?|? ? ?|? ? ? ?|?|[?|? ?| |]]; cbn; now rewrite IH.
Qed.

Lemma initial_segment_nil {A} (l : list A) : initial_segment [] l.
Proof. now exists l. Qed.

Lemma initial_segment_refl {A} (l : list A) : initial_segment l l.
Proof. exists []. now rewrite app_nil_r. Qed.

Lemma initial_segment_app {A} (a l1 l2 : list A) :
  initial_segment l1 l2 -> initial_segment (a ++ l1) (a ++ l2).
Proof. intros [rest ->]. exists rest. now rewrite app_assoc. Qed.

Lemma initial_segment_cons {A} (a : A) (l1 l2 : list A) :
  initial_segment l1 l2 -> initial_segment (a :: l1) (a :: l2).
Proof. apply (initial_segment_app [a]). Qed.

Lemma initial_segment_grow {A} (l1 l2 more : list A) :
  initial_segment l1 l2 -> initial_segment l1 (l2 ++ more).
Proof. intros [rest ->]. exists (rest ++ more)%list. now rewrite app_assoc. Qed.

Lemma initial_segment_In {A} (l1 l2 : list A) (x : A) :
  initial_segment l1 l2 -> In x l1 -> In x l2.
Proof. intros [rest ->] H. apply in_or_app. now left. Qed.

Lemma stops_at_failure_app (t1 t2 : list event) (err : option exn) :
  stops_at_failure t1 None -> stops_at_failure t2 err ->
  stops_at_failure (t1 ++ t2) err.
Proof.
  induction t1 as [|ev t1 IH]; intros H1 H2; [exact H2|].
  destruct H1 as [Hev H1]. split; [|now apply IH].
  intros e He. destruct (Hev e He) as [_ H]. discriminate.
Qed.

Lemma stops_at_failure_last (tr : list event) (err : option exn)
    (before after : list event) (ev : event) (e : exn) :
  stops_at_failure tr err ->
  tr = (before ++ ev :: after)%list -> failure_of ev = Some e ->
  after = [] /\ err = Some e.
Proof.
  revert tr. induction before as [|x before IH]; intros tr H -> He.
  - destruct H as [H _]. now apply H.
  - destruct H as [_ H]. now apply (IH _ H eq_refl).
Qed.

Lemma stops_at_failure_succeeded (tr : list event) :
  stops_at_failure tr None -> Forall delete_succeeded tr.
Proof.
  induction tr as [|ev tr IH]; intros H; [constructor|].
  destruct H as [Hev H]. constructor; [|now apply IH].
  destruct ev as [? ?|? ? ?|? ? ? [e|?]|?|?]; cbn; trivial.
  destruct (Hev e eq_refl) as [_ Habs]. discriminate.
Qed.

Section ShapeFacts.

Variable strptime : string -> string -> option Datetime.datetime.
Variable org : string.
Variable prefix : string.

Lemma quiet_readers (tr : list event) :
  quiet tr ->
  listed tr = [] /\ clock_reads tr = [] /\ answered tr = []
  /\ summaries tr = []
  /\ forall rest, delete_verdicts strptime (tr ++ rest)
                  = delete_verdicts strptime rest.
Proof.
  induction 1 as [|ev tr Hev Htr IH]; [repeat split|].
  destruct IH as (H1 & H2 & H3 & H4 & H5).
  destruct ev as [? ?|? ? ?|? ? ? ?|?|[?|? ?| |]]; try destruct Hev;
    cbn; repeat split; auto.
Qed.

Lemma deleting_quiet (name : json) (outdated : list json) (h : bool)
    (tr : list event) (r : result bool) :
  deleting org name outdated h tr r -> quiet tr.
Proof.
  induction 1; unfold quiet in *; repeat constructor; assumption.
Qed.

Lemma deleting_stops (name : json) (outdated : list json) (h : bool)
    (tr : list event) (r : result bool) :
  deleting org name outdated h tr r -> stops_at_failure tr (error_of r).
Proof.
  induction 1; cbn; repeat split; try discriminate; auto.
Qed.

(** The deletions requested for one package follow its outdated versions
    in order, up to the first failure. *)
Lemma deleting_in_order (name : json) (outdated : list json) (h : bool)
    (tr : list event) (r : result bool) :
  deleting org name outdated h tr r ->
  initial_segment (map attempted (deletions tr))
                  (map target (map (pair name) outdated))
  /\ forall h', r = inr h' ->
       map attempted (deletions tr) = map target (map (pair name) outdated)
       /\ h' = h || nonempty (deletions tr).
Proof.
  induction 1 as [h|v rest h e Hid|v rest h id e Hid
                  |v rest h id answer tr r Hid Hdel [IH1 IH2]].
  - split; [apply initial_segment_refl|].
    intros h' H. injection H as <-. now rewrite orb_false_r.
  - split; [apply initial_segment_nil | discriminate].
  - split; [|discriminate]. cbn. unfold attempted at 1, target at 1. cbn.
    rewrite Hid. apply initial_segment_cons, initial_segment_nil.
  - cbn [deletions map]. unfold attempted at 1 3, target at 1 3.
    cbn [fst snd]. rewrite Hid. split.
    + now apply initial_segment_cons.
    + intros h' Hr. destruct (IH2 h' Hr) as [-> ->].
      split; [reflexivity|]. cbn. now rewrite orb_true_r.
Qed.

Lemma processing_stops (pkgs : list json) (h : bool) (tr : list event)
    (r : result bool) :
  processing strptime org pkgs h tr r -> stops_at_failure tr (error_of r).
Proof.
  induction 1 as [h|pkg rest h e Hn|pkg rest h name e Hn
                  |pkg rest h name versions now e Hn Hout
                  |pkg rest h name versions now outdated tr e Hn Hout Hdel
                  |pkg rest h h' name versions now outdated tr tr' r
                     Hn Hout Hdel Hrest IH].
  - exact I.
  - exact I.
  - cbn. repeat split; auto.
  - cbn. repeat split; auto; discriminate.
  - cbn. repeat split; try discriminate. now apply deleting_stops in Hdel.
  - cbn. repeat split; try discriminate.
    apply stops_at_failure_app; [|exact IH].
    now apply deleting_stops in Hdel.
Qed.

Lemma processing_no_summary (pkgs : list json) (h : bool) (tr : list event)
    (r : result bool) :
  processing strptime org pkgs h tr r -> summaries tr = [].
Proof.
  induction 1 as [h|pkg rest h e Hn|pkg rest h name e Hn
                  |pkg rest h name versions now e Hn Hout
                  |pkg rest h name versions now outdated tr e Hn Hout Hdel
                  |pkg rest h h' name versions now outdated tr tr' r
                     Hn Hout Hdel Hrest IH]; try reflexivity.
  - cbn. now apply deleting_quiet, quiet_readers in Hdel.
  - cbn. rewrite summaries_app, IH.
    apply deleting_quiet, quiet_readers in Hdel.
    destruct Hdel as (_ & _ & _ & -> & _). reflexivity.
Qed.

(** The packages listed for versions are the packages of the loop, in
    order, up to the point where the run stops. *)
Lemma processing_listed (pkgs : list json) (h : bool) (tr : list event)
    (r : result bool) :
  processing strptime org pkgs h tr r ->
  initial_segment (listed tr) (package_names pkgs)
  /\ (is_ok r = true -> listed tr = package_names pkgs).
Proof.
  induction 1 as [h|pkg rest h e Hn|pkg rest h name e Hn
                  |pkg rest h name versions now e Hn Hout
                  |pkg rest h name versions now outdated tr e Hn Hout Hdel
                  |pkg rest h h' name versions now outdated tr tr' r
                     Hn Hout Hdel Hrest [IH1 IH2]];
    try (split; [apply initial_segment_nil | discriminate]);
    try (cbn [package_names flat_map]; fold (package_names rest);
         rewrite Hn; cbn [listed app]).
  - split; [apply initial_segment_refl | reflexivity].
  - split; [apply initial_segment_cons, initial_segment_nil | discriminate].
  - split; [apply initial_segment_cons, initial_segment_nil | discriminate].
  - split; [|discriminate]. apply initial_segment_cons.
    apply deleting_quiet, quiet_readers in Hdel.
    destruct Hdel as (-> & _). apply initial_segment_nil.
  - rewrite listed_app.
    apply deleting_quiet, quiet_readers in Hdel. destruct Hdel as (-> & _).
    cbn [app]. split.
    + now apply initial_segment_cons.
    + intros Hr. now rewrite IH2.
Qed.

(** The clock is read once for each listing answered. *)
Lemma processing_clock (pkgs : list json) (h : bool) (tr : list event)
    (r : result bool) :
  processing strptime org pkgs h tr r ->
  List.length (clock_reads tr) = List.length (answered tr).
Proof.
  induction 1 as [h|pkg rest h e Hn|pkg rest h name e Hn
                  |pkg rest h name versions now e Hn Hout
                  |pkg rest h name versions now outdated tr e Hn Hout Hdel
                  |pkg rest h h' name versions now outdated tr tr' r
                     Hn Hout Hdel Hrest IH]; try reflexivity.
  - cbn. apply deleting_quiet, quiet_readers in Hdel.
    destruct Hdel as (_ & -> & -> & _). reflexivity.
  - cbn. rewrite clock_reads_app, answered_app, !length_app, IH.
    apply deleting_quiet, quiet_readers in Hdel.
    destruct Hdel as (_ & -> & -> & _). reflexivity.
Qed.

(** The deletions requested follow the versions with verdict "delete",
    package after package, up to the point where the run stops. *)
Lemma processing_deletions (pkgs : list json) (h : bool) (tr : list event)
    (r : result bool) :
  processing strptime org pkgs h tr r ->
  initial_segment (map attempted (deletions tr))
                  (map target (delete_verdicts strptime tr))
  /\ forall h', r = inr h' ->
       map attempted (deletions tr) = map target (delete_verdicts strptime tr)
       /\ h' = h || nonempty (deletions tr).
Proof.
  induction 1 as [h|pkg rest h e Hn|pkg rest h name e Hn
                  |pkg rest h name versions now e Hn Hout
                  |pkg rest h name versions now outdated tr e Hn Hout Hdel
                  |pkg rest h h' name versions now outdated tr tr' r
                     Hn Hout Hdel Hrest [IH1 IH2]];
    try (split; [apply initial_segment_nil | discriminate]).
  - split; [apply initial_segment_nil|].
    intros h' H. injection H as <-. now rewrite orb_false_r.
  - split; [|discriminate].
    apply outdated_at_Ok in Hout. subst outdated.
    pose proof (deleting_quiet _ _ _ _ _ Hdel) as Hq.
    apply quiet_readers in Hq. destruct Hq as (_ & _ & _ & _ & Hq).
    specialize (Hq []). rewrite app_nil_r in Hq.
    cbn [deletions delete_verdicts]. rewrite Hq, app_nil_r.
    now apply deleting_in_order in Hdel.
  - apply outdated_at_Ok in Hout. subst outdated.
    pose proof (deleting_quiet _ _ _ _ _ Hdel) as Hq.
    apply quiet_readers in Hq. destruct Hq as (_ & _ & _ & _ & Hq).
    apply deleting_in_order in Hdel. destruct Hdel as [_ Hdel].
    destruct (Hdel h' eq_refl) as [Heq Hh'].
    cbn [deletions delete_verdicts]. rewrite Hq, deletions_app, !map_app, Heq.
    split.
    + now apply initial_segment_app.
    + intros h'' Hr. destruct (IH2 h'' Hr) as [-> ->]. split; [reflexivity|].
      rewrite Hh'. destruct h, (deletions tr), (deletions tr'); reflexivity.
Qed.

(** A listing that cannot be evaluated ends the run with an exception. *)
Lemma processing_bad_listing (pkgs : list json) (h : bool) (tr : list event)
    (r : result bool) (o : string) (n versions : json) :
  processing strptime org pkgs h tr r ->
  In (EvVersions o n (inr versions)) tr ->
  (forall now, is_ok (outdated_at strptime now versions) = false) ->
  is_ok r = false.
Proof.
  intros Hp Hin Hbad.
  induction Hp as [h|pkg rest h e Hn|pkg rest h name e Hn
                  |pkg rest h name vs now e Hn Hout
                  |pkg rest h name vs now outdated tr e Hn Hout Hdel
                  |pkg rest h h' name vs now outdated tr tr' r
                     Hn Hout Hdel Hrest IH]; try reflexivity.
  - destruct Hin.
  - assert (Hq := deleting_quiet _ _ _ _ _ Hdel).
    destruct Hin as [Heq|[Heq|Hin]]; [| discriminate |].
    + injection Heq as _ _ ->. specialize (Hbad now).
      rewrite Hout in Hbad. discriminate.
    + apply in_app_or in Hin. destruct Hin as [Hin|Hin]; [|now apply IH].
      unfold quiet in Hq. rewrite Forall_forall in Hq.
      destruct (Hq _ Hin).
Qed.

End ShapeFacts.

(** ** The selection of packages *)

Section SelectionFacts.

Variable prefix : string.

Lemma comprehension_if_filter (items pkgs : list json) :
  comprehension_if (name_test prefix) items = Ok pkgs ->
  pkgs = filter (name_starts_with prefix) items.
Proof.
  revert pkgs. induction items as [|x items IH]; intros pkgs H; cbn in H.
  - now injection H as <-.
  - cbn [filter]. unfold name_starts_with at 1. unfold name_test at 1 in H.
    destruct (getitem x "name") as [e|n]; [discriminate|]. cbn in H.
    destruct n; try discriminate. cbn in H.
    destruct (comprehension_if (name_test prefix) items) as [e|rest]; [discriminate|].
    cbn in H. rewrite <- (IH rest eq_refl).
    destruct (startswith s prefix); now injection H as <-.
Qed.

Lemma comprehension_if_well_formed (items : list json) :
  Forall well_formed_package items ->
  comprehension_if (name_test prefix) items = Ok (filter (name_starts_with prefix) items).
Proof.
  induction 1 as [|x items [s Hx] _ IH]; [reflexivity|].
  cbn [comprehension_if filter]. unfold name_test at 1, name_starts_with at 1.
  rewrite Hx. cbn. rewrite IH. cbn. now destruct (startswith s prefix).
Qed.

Lemma selected_filter (packages : json) (items pkgs : list json) :
  iter packages = Ok items ->
  selected prefix packages = Ok pkgs ->
  pkgs = filter (name_starts_with prefix) items.
Proof.
  unfold selected. intros ->. cbn [rbind Ok]. apply comprehension_if_filter.
Qed.

Lemma selected_well_formed (pkgs : list json) :
  Forall well_formed_package pkgs ->
  selected prefix (JList pkgs) = Ok (filter (name_starts_with prefix) pkgs).
Proof. intros H. unfold selected. cbn. now apply comprehension_if_well_formed. Qed.

(** The names of the packages kept are strings that start with the prefix. *)
Lemma filtered_names (items : list json) (n : json) :
  In n (package_names (filter (name_starts_with prefix) items)) ->
  exists s, n = JStr s /\ startswith s prefix = true.
Proof.
  induction items as [|x items IH]; [intros []|].
  cbn [filter]. destruct (name_starts_with prefix x) eqn:Hx; [|exact IH].
  cbn [package_names flat_map]. unfold name_starts_with in Hx.
  destruct (getitem x "name") as [e|m]; [discriminate|].
  intros Hin. apply in_app_or in Hin. destruct Hin as [[<-|[]]|Hin]; [|now apply IH].
  destruct m; try discriminate. now exists s.
Qed.

Lemma selected_names_prefixed (packages : json) (pkgs : list json) (n : json) :
  selected prefix packages = Ok pkgs ->
  In n (package_names pkgs) ->
  exists s, n = JStr s /\ startswith s prefix = true.
Proof.
  intros Hsel. unfold selected in Hsel.
  destruct (iter packages) as [e|items]; [discriminate|]. cbn [rbind] in Hsel.
  apply comprehension_if_filter in Hsel. subst pkgs. apply filtered_names.
Qed.

End SelectionFacts.

(** ** Whole runs *)

Section RunFacts.

Variable strptime : string -> string -> option Datetime.datetime.
Variable org : string.
Variable prefix : string.

Lemma In_listed (tr : list event) (o : string) (n : json) (a : result json) :
  In (EvVersions o n a) tr -> In n (listed tr).
Proof.
  induction tr as [|ev tr IH]; [intros []|].
  intros [->|Hin]; [now left|].
  destruct ev; cbn; auto.
Qed.

Lemma delete_verdicts_then_print (tr : list event) (m : message) :
  delete_verdicts strptime (tr ++ [EvPrint m]) = delete_verdicts strptime tr.
Proof.
  induction tr as [|ev tr IH]; [reflexivity|].
  cbn [app delete_verdicts]. rewrite IH.
  destruct ev as [? ?|? ? [?|?]|? ? ? ?|?|?]; try reflexivity.
  destruct tr as [|[]]; reflexivity.
Qed.

Lemma running_stops (tr : list event) (r : result unit) :
  running strptime org prefix tr r -> stops_at_failure tr (error_of r).
Proof.
  intros [e|packages e Hsel|packages pkgs tr1 e Hsel Hp
          |packages pkgs tr1 h Hsel Hp]; cbn.
  - auto.
  - repeat split; discriminate.
  - repeat split; try discriminate. now apply processing_stops in Hp.
  - repeat split; try discriminate.
    apply stops_at_failure_app; [now apply processing_stops in Hp|].
    cbn. split; [|exact I]. destruct h; discriminate.
Qed.

Lemma running_listed (tr : list event) (r : result unit)
    (packages : json) (items : list json) (rest_tr : list event) :
  running strptime org prefix tr r ->
  tr = EvPackages org (inr packages) :: rest_tr ->
  iter packages = Ok items ->
  let kept := filter (name_starts_with prefix) items in
  initial_segment (listed tr) (package_names kept)
  /\ (is_ok r = true -> listed tr = package_names kept).
Proof.
  intros [e|packages' e Hsel|packages' pkgs tr1 e Hsel Hp
          |packages' pkgs tr1 h Hsel Hp] Htr Hit kept.
  - discriminate.
  - split; [apply initial_segment_nil | discriminate].
  - injection Htr as -> _.
    rewrite (selected_filter prefix packages items pkgs Hit Hsel) in *.
    cbn [listed]. split; [|discriminate]. now apply processing_listed in Hp.
  - injection Htr as -> _.
    rewrite (selected_filter prefix packages items pkgs Hit Hsel) in *.
    cbn [listed]. rewrite listed_app. cbn [listed]. rewrite app_nil_r.
    apply processing_listed in Hp. destruct Hp as [H1 H2]. split; auto.
Qed.

Lemma running_only_prefixed (tr : list event) (r : result unit)
    (o : string) (n : json) (a : result json) :
  running strptime org prefix tr r ->
  In (EvVersions o n a) tr ->
  exists s, n = JStr s /\ startswith s prefix = true.
Proof.
  intros [e|packages e Hsel|packages pkgs tr1 e Hsel Hp
          |packages pkgs tr1 h Hsel Hp] Hin.
  - destruct Hin as [|[]]; discriminate.
  - destruct Hin as [|[]]; discriminate.
  - destruct Hin as [|[|Hin]]; try discriminate.
    apply In_listed in Hin. apply processing_listed in Hp.
    eapply selected_names_prefixed; [exact Hsel|].
    eapply initial_segment_In; [apply Hp | exact Hin].
  - destruct Hin as [|[|Hin]]; try discriminate.
    apply in_app_or in Hin. destruct Hin as [Hin|[|[]]]; [|discriminate].
    apply In_listed in Hin. apply processing_listed in Hp.
    eapply selected_names_prefixed; [exact Hsel|].
    eapply initial_segment_In; [apply Hp | exact Hin].
Qed.

Lemma running_deletions (tr : list event) (r : result unit) :
  running strptime org prefix tr r ->
  initial_segment (map attempted (deletions tr))
                  (map target (delete_verdicts strptime tr))
  /\ (is_ok r = true ->
      map attempted (deletions tr) = map target (delete_verdicts strptime tr)).
Proof.
  intros [e|packages e Hsel|packages pkgs tr1 e Hsel Hp
          |packages pkgs tr1 h Hsel Hp].
  - split; [apply initial_segment_nil | discriminate].
  - split; [apply initial_segment_nil | discriminate].
  - cbn [deletions delete_verdicts]. split; [|discriminate].
    now apply processing_deletions in Hp.
  - cbn [deletions delete_verdicts].
    rewrite deletions_app, delete_verdicts_then_print. cbn [deletions].
    rewrite app_nil_r. apply processing_deletions in Hp.
    destruct Hp as [_ Hp]. destruct (Hp h eq_refl) as [-> _].
    split; [apply initial_segment_refl | reflexivity].
Qed.

(** A run that completes ends with the one summary it prints: "cleanup
    performed" when it requested a deletion, "nothing outdated" otherwise;
    a run that raises prints none. *)
Lemma running_summary (tr : list event) (r : result unit) :
  running strptime org prefix tr r ->
  match r with
  | inr _ =>
      exists body,
        tr = (body ++ [EvPrint (if nonempty (deletions tr)
                                then MsgDone else MsgNothing)])%list
        /\ summaries body = []
        /\ Forall delete_succeeded tr
  | inl _ => summaries tr = []
  end.
Proof.
  intros Hrun. pose proof (running_stops tr r Hrun) as Hstop. revert Hstop.
  destruct Hrun as [e|packages e Hsel|packages pkgs tr1 e Hsel Hp
                    |packages pkgs tr1 h Hsel Hp]; intros Hstop;
    try reflexivity.
  - cbn. now apply processing_no_summary in Hp.
  - exists (EvPackages org (inr packages)
              :: EvPrint (MsgFound (package_names pkgs)) :: tr1).
    pose proof (processing_deletions _ _ _ _ _ _ Hp) as [_ Hd].
    destruct (Hd h eq_refl) as [_ Hh]. cbn [orb] in Hh.
    cbn [deletions]. rewrite deletions_app. cbn [deletions].
    rewrite app_nil_r, <- Hh. split; [reflexivity|]. split.
    + cbn. now apply processing_no_summary in Hp.
    + now apply stops_at_failure_succeeded.
Qed.

Lemma running_clock (tr : list event) (r : result unit) :
  running strptime org prefix tr r ->
  List.length (clock_reads tr) = List.length (answered tr).
Proof.
  intros [e|packages e Hsel|packages pkgs tr1 e Hsel Hp
          |packages pkgs tr1 h Hsel Hp]; try reflexivity.
  - cbn. now apply processing_clock in Hp.
  - cbn. rewrite clock_reads_app, answered_app, !length_app.
    apply processing_clock in Hp. rewrite Hp. now destruct h.
Qed.

Lemma running_bad_listing (tr : list event) (r : result unit)
    (o : string) (n versions : json) :
  running strptime org prefix tr r ->
  In (EvVersions o n (inr versions)) tr ->
  (forall now, is_ok (outdated_at strptime now versions) = false) ->
  is_ok r = false.
Proof.
  intros [e|packages e Hsel|packages pkgs tr1 e Hsel Hp
          |packages pkgs tr1 h Hsel Hp] Hin Hbad; try reflexivity.
  destruct Hin as [|[|Hin]]; try discriminate.
  apply in_app_or in Hin. destruct Hin as [Hin|[|[]]]; [|discriminate].
  now apply (processing_bad_listing _ _ _ _ _ _ _ _ _ Hp Hin) in Hbad.
Qed.

End RunFacts.

(** ** The claims about whole runs *)

Section Claims.

Context {W : Type}.
Variable datetime_now : W -> W * Datetime.datetime.
Variable strptime : string -> string -> option Datetime.datetime.
Variable self : GithubPackageCleaner W.

(** A version whose evaluation raises makes [get_outdated_versions] raise
    for its package, and ends any run in which it is listed. *)
Lemma no_verdict_no_result (version : json) :
  (forall one_month_ago,
      is_ok (version_is_outdated strptime one_month_ago version) = false) ->
  (forall (pkg_name : json) (w w1 : W) (versions : json) (items : list json),
      list_versions (github self) (org_name self) pkg_name w = (w1, Ok versions) ->
      iter versions = Ok items -> In version items ->
      is_ok (result_of (get_outdated_versions datetime_now strptime self pkg_name w))
      = false)
  /\ (forall (w : W) (o : string) (n versions : json) (items : list json),
        In (EvVersions o n (inr versions)) (trace_of (clean_outdated_packages datetime_now strptime self w)) ->
        iter versions = Ok items -> In version items ->
        is_ok (result_of (clean_outdated_packages datetime_now strptime self w)) = false).
Proof.
  intros Hbad. split.
  - intros pkg_name w w1 versions items Hl Hit Hin.
    rewrite get_outdated_versions_eq, Hl. unfold Ok.
    destruct (datetime_now w1) as [w2 now]. cbn [result_of snd].
    eapply outdated_at_Err; eauto.
  - intros w o n versions items Hin Hit Hv.
    destruct (run_shape datetime_now strptime self w) as [Hrun _].
    eapply running_bad_listing; [exact Hrun | exact Hin |].
    intros now. eapply outdated_at_Err; eauto.
Qed.

End Claims.

(** C1, as the code has it.  A deletion that fails ends the run: the
    failed request is the last event of the trace (no later deletion, no
    later listing, no summary) and its exception is the outcome of the
    run. *)
Theorem failed_deletion_ends_run {W : Type}
    (datetime_now : W -> W * Datetime.datetime)
    (strptime : string -> string -> option Datetime.datetime)
    (self : GithubPackageCleaner W) (w : W)
    (before after : list event) (o : string) (n i : json) (e : exn) :
  let x := clean_outdated_packages datetime_now strptime self w in
  trace_of x = (before ++ EvDelete o n i (inl e) :: after)%list ->
  after = []
  /\ result_of x = inl e
  /\ deletions (trace_of x) = (deletions before ++ [(n, i)])%list.
Proof.
  intros x Htr.
  destruct (run_shape datetime_now strptime self w) as [Hrun _].
  apply running_stops in Hrun. fold x in Hrun.
  destruct (stops_at_failure_last _ _ _ _ _ e Hrun Htr eq_refl) as [-> Herr].
  split; [reflexivity|]. split.
  - destruct (result_of x) as [e'|u]; [|discriminate]. now injection Herr as ->.
  - rewrite Htr, deletions_app. reflexivity.
Qed.

(** C6, as the code has it.  The deletions requested are, in order, an
    initial segment of the versions with verdict "delete" (packages in the
    order of the registry's list, versions in the order listed), and no
    other version is deleted; a run that completes has requested all of
    them. *)
Theorem deletions_follow_delete_verdicts {W : Type}
    (datetime_now : W -> W * Datetime.datetime)
    (strptime : string -> string -> option Datetime.datetime)
    (self : GithubPackageCleaner W) (w : W) :
  let x := clean_outdated_packages datetime_now strptime self w in
  let tr := trace_of x in
  initial_segment (map attempted (deletions tr))
                  (map target (delete_verdicts strptime tr))
  /\ (is_ok (result_of x) = true ->
      map attempted (deletions tr) = map target (delete_verdicts strptime tr))
  /\ (forall (w1 : W) (pkgs : list json),
        list_packages (github self) (org_name self) w = (w1, Ok (JList pkgs)) ->
        let kept := filter (name_starts_with (container_prefix self)) pkgs in
        initial_segment (listed tr) (package_names kept)
        /\ (is_ok (result_of x) = true -> listed tr = package_names kept)).
Proof.
  intros x tr.
  destruct (run_shape datetime_now strptime self w) as [Hrun [rest Hhead]].
  fold x in Hrun, Hhead. fold tr in Hrun, Hhead.
  destruct (running_deletions _ _ _ _ _ Hrun) as [H1 H2].
  split; [exact H1|]. split; [exact H2|].
  intros w1 pkgs Hl. rewrite Hl in Hhead. cbn [snd] in Hhead.
  exact (running_listed _ _ _ _ _ (JList pkgs) pkgs rest Hrun Hhead eq_refl).
Qed.

(** C5, as the code has it.  Versions are listed only for packages whose
    name is a string that starts with the configured prefix;
    [get_packages] keeps exactly the packages of the registry's list that
    pass this test, in order; the packages listed for versions are an
    initial segment of those, in order, and all of them when the run
    completes (a request that fails ends the run, and the packages after
    it are then not processed). *)
Theorem only_prefixed_packages_are_processed {W : Type}
    (datetime_now : W -> W * Datetime.datetime)
    (strptime : string -> string -> option Datetime.datetime)
    (self : GithubPackageCleaner W) (w : W) :
  let x := clean_outdated_packages datetime_now strptime self w in
  (forall (o : string) (n : json) (a : result json),
      In (EvVersions o n a) (trace_of x) ->
      exists s, n = JStr s /\ startswith s (container_prefix self) = true)
  /\ (forall s p : string,
        startswith s p = true <-> exists rest, s = p ++ rest)
  /\ (forall (w1 : W) (pkgs : list json),
        list_packages (github self) (org_name self) w = (w1, Ok (JList pkgs)) ->
        let kept := filter (name_starts_with (container_prefix self)) pkgs in
        (Forall well_formed_package pkgs ->
         result_of (get_packages self w) = Ok kept)
        /\ (forall l, result_of (get_packages self w) = Ok l -> l = kept)
        /\ initial_segment (listed (trace_of x)) (package_names kept)
        /\ (is_ok (result_of x) = true ->
            listed (trace_of x) = package_names kept)).
Proof.
  intros x.
  destruct (run_shape datetime_now strptime self w) as [Hrun [rest Hhead]].
  fold x in Hrun, Hhead. split; [|split].
  - intros o n a Hin. eapply running_only_prefixed; eauto.
  - apply ReFacts.startswith_iff.
  - intros w1 pkgs Hl kept. rewrite get_packages_eq, Hl. unfold Ok.
    cbn [result_of snd]. split; [|split].
    + intros Hwf. now apply selected_well_formed.
    + intros l Hsel. now apply (selected_filter _ (JList pkgs) pkgs l eq_refl).
    + rewrite Hl in Hhead. cbn [snd] in Hhead.
      exact (running_listed _ _ _ _ _ (JList pkgs) pkgs rest Hrun Hhead eq_refl).
Qed.

(** C8, as the code has it.  A run that completes prints one summary, as
    its last output: "cleanup performed" when it requested at least one
    deletion (each of which succeeded), "nothing outdated found" when it
    requested none, which is when no version got the verdict "delete".
    A run that raises, as when a deletion fails, prints no summary. *)
Theorem summary_of_a_run {W : Type}
    (datetime_now : W -> W * Datetime.datetime)
    (strptime : string -> string -> option Datetime.datetime)
    (self : GithubPackageCleaner W) (w : W) :
  let x := clean_outdated_packages datetime_now strptime self w in
  let tr := trace_of x in
  match result_of x with
  | inr _ =>
      (exists body,
          tr = (body ++ [EvPrint (if nonempty (deletions tr)
                                  then MsgDone else MsgNothing)])%list
          /\ summaries body = [])
      /\ Forall delete_succeeded tr
      /\ nonempty (deletions tr) = nonempty (delete_verdicts strptime tr)
  | inl _ => summaries tr = []
  end.
Proof.
  intros x tr.
  destruct (run_shape datetime_now strptime self w) as [Hrun _].
  fold x in Hrun. fold tr in Hrun.
  pose proof (running_summary _ _ _ _ _ Hrun) as Hsum.
  pose proof (running_deletions _ _ _ _ _ Hrun) as [_ Hdel].
  destruct (result_of x) as [e|u]; [exact Hsum|].
  destruct Hsum as (body & Hbody & Hnone & Hok).
  split; [now exists body|]. split; [exact Hok|].
  specialize (Hdel eq_refl).
  destruct (deletions tr), (delete_verdicts strptime tr);
    try reflexivity; discriminate.
Qed.

(** C4, as the code has it.  [get_outdated_versions] reads the clock
    itself, once, after the listing is answered, and judges every version
    of that listing against this one reading; a listing that fails reads
    no clock.  Over a run the clock is read once for each listing
    answered, so once per package processed. *)
Theorem clock_is_read_once_per_listing {W : Type}
    (datetime_now : W -> W * Datetime.datetime)
    (strptime : string -> string -> option Datetime.datetime)
    (self : GithubPackageCleaner W) :
  (forall (pkg_name : json) (w : W),
      let x := get_outdated_versions datetime_now strptime self pkg_name w in
      match list_versions (github self) (org_name self) pkg_name w with
      | (_, inl e) => clock_reads (trace_of x) = [] /\ result_of x = inl e
      | (w1, inr versions) =>
          let now := snd (datetime_now w1) in
          clock_reads (trace_of x) = [now]
          /\ result_of x = outdated_at strptime now versions
          /\ match result_of x with
             | inr outdated => outdated = delete_verdicts_at strptime now versions
             | inl _ => True
             end
      end)
  /\ (forall w : W,
        let tr := trace_of (clean_outdated_packages datetime_now strptime self w) in
        List.length (clock_reads tr) = List.length (answered tr)).
Proof.
  split.
  - intros pkg_name w x. unfold x. rewrite get_outdated_versions_eq.
    destruct (list_versions (github self) (org_name self) pkg_name w)
      as [w1 [e|versions]]; [split; reflexivity|].
    destruct (datetime_now w1) as [w2 now]. cbn [snd trace_of result_of fst].
    split; [reflexivity|]. split; [reflexivity|].
    destruct (outdated_at strptime now versions) as [e|outdated] eqn:Hout;
      [exact I | now apply outdated_at_Ok in Hout].
  - intros w tr.
    destruct (run_shape datetime_now strptime self w) as [Hrun _].
    now apply running_clock in Hrun.
Qed.

(** C7. A version whose [created_at] does not parse has no verdict: its
    evaluation raises [ValueError]; [get_outdated_versions] raises for a
    listing that holds it, and a run in which it is listed ends with an
    exception. *)
Theorem unparsable_created_at_raises {W : Type}
    (datetime_now : W -> W * Datetime.datetime)
    (strptime : string -> string -> option Datetime.datetime)
    (self : GithubPackageCleaner W) (version : json) (s : string) :
  getitem version "created_at" = Ok (JStr s) ->
  strptime s "%Y-%m-%dT%H:%M:%SZ" = None ->
  (forall one_month_ago,
      version_is_outdated strptime one_month_ago version = Err ValueError)
  /\ (forall (pkg_name : json) (w w1 : W) (versions : json) (items : list json),
        list_versions (github self) (org_name self) pkg_name w = (w1, Ok versions) ->
        iter versions = Ok items -> In version items ->
        is_ok (result_of (get_outdated_versions datetime_now strptime self pkg_name w))
        = false)
  /\ (forall (w : W) (o : string) (n versions : json) (items : list json),
        let x := clean_outdated_packages datetime_now strptime self w in
        In (EvVersions o n (inr versions)) (trace_of x) ->
        iter versions = Ok items -> In version items ->
        is_ok (result_of x) = false).
Proof.
  intros Hc Hp.
  assert (Hbad : forall oma, version_is_outdated strptime oma version = Err ValueError)
    by (intros oma; now apply unparsable_raises with (s := s)).
  split; [exact Hbad|].
  apply no_verdict_no_result. intros oma. now rewrite Hbad.
Qed.

(** C10. A version record without ["metadata"], or without ["container"]
    under it, or without ["tags"] under that, has no verdict: once its
    [created_at] is read, evaluating it raises the [KeyError] of the
    missing key; [get_outdated_versions] raises for a listing that holds
    it, and a run in which it is listed ends with an exception. *)
Theorem missing_tags_raises {W : Type}
    (datetime_now : W -> W * Datetime.datetime)
    (strptime : string -> string -> option Datetime.datetime)
    (self : GithubPackageCleaner W) (version : json) :
  lacks_tags version ->
  (forall one_month_ago,
      is_ok (version_is_outdated strptime one_month_ago version) = false)
  /\ (forall one_month_ago s created_at,
        getitem version "created_at" = Ok (JStr s) ->
        strptime s "%Y-%m-%dT%H:%M:%SZ" = Some created_at ->
        exists key,
          version_is_outdated strptime one_month_ago version
          = Err (KeyError (JStr key))
          /\ (key = "metadata" \/ key = "container" \/ key = "tags"))
  /\ (forall (pkg_name : json) (w w1 : W) (versions : json) (items : list json),
        list_versions (github self) (org_name self) pkg_name w = (w1, Ok versions) ->
        iter versions = Ok items -> In version items ->
        is_ok (result_of (get_outdated_versions datetime_now strptime self pkg_name w))
        = false)
  /\ (forall (w : W) (o : string) (n versions : json) (items : list json),
        let x := clean_outdated_packages datetime_now strptime self w in
        In (EvVersions o n (inr versions)) (trace_of x) ->
        iter versions = Ok items -> In version items ->
        is_ok (result_of x) = false).
Proof.
  intros Hlack.
  assert (Hbad : forall oma,
             is_ok (version_is_outdated strptime oma version) = false)
    by (intros oma; now apply lacks_tags_no_verdict).
  split; [exact Hbad|]. split.
  - intros oma s c Hc Hp.
    destruct (lacks_tags_raises version Hlack) as (key & Hk & Hkey).
    exists key. split; [|exact Hkey].
    unfold version_is_outdated. rewrite Hc. cbn [rbind Ok parse_created_at].
    rewrite Hp. cbn [rbind]. now rewrite Hk.
  - now apply no_verdict_no_result.
Qed.

(** ** Concrete runs *)

Example strptime_noon_march_1 :
  Datetime.py_strptime "2024-03-01T12:00:00Z" Datetime.iso_format
  = Some Sim.noon_march_1.
Proof. vm_compute. reflexivity. Qed.

Example strptime_rejects :
  Datetime.py_strptime "2024-03-01T12:00:00" Datetime.iso_format = None
  /\ Datetime.py_strptime "2024-03-01T12:00:00Z " Datetime.iso_format = None
  /\ Datetime.py_strptime "2023-02-29T12:00:00Z" Datetime.iso_format = None
  /\ Datetime.py_strptime "2024-03-01T12:00:60Z" Datetime.iso_format = None
  /\ Datetime.py_strptime "0000-03-01T12:00:00Z" Datetime.iso_format = None.
Proof. vm_compute. repeat split. Qed.

(** The parser takes what CPython's takes at this format: one-digit
    fields and the letters in lower case too. *)
Example strptime_lenient :
  Datetime.py_strptime "2024-1-5t1:2:3z" Datetime.iso_format
  = Datetime.make 2024 1 5 1 2 3 0.
Proof. vm_compute. reflexivity. Qed.

(** The end-to-end scenario of the specification: versions 1 and 3 of
    [writing-api] are deleted, version 2 is kept, [other-svc] is not
    listed, and the run reports that cleanup was performed. *)
Example end_to_end :
  deletions (trace_of Sim.complete_run)
  = [(JStr "writing-api", JInt 1); (JStr "writing-api", JInt 3);
     (JStr "writing-web", JInt 6)]
  /\ listed (trace_of Sim.complete_run) = [JStr "writing-api"; JStr "writing-web"]
  /\ summaries (trace_of Sim.complete_run) = [MsgDone]
  /\ result_of Sim.complete_run = Ok tt.
Proof. vm_compute. repeat split. Qed.

Lemma verdict_is_outdated_and_safe_witness :
  version_is_outdated Datetime.py_strptime Sim.cutoff Sim.v3 = Ok true
  /\ version_is_outdated Datetime.py_strptime Sim.cutoff Sim.v4 = Ok false
  /\ version_is_outdated Datetime.py_strptime Sim.cutoff Sim.v2 = Ok false.
Proof.
  assert (Hsub : Datetime.sub Sim.noon_march_1 (Datetime.timedelta_days 30)
                 = Ok Sim.cutoff) by (vm_compute; reflexivity).
  assert (P3 : Datetime.py_strptime "2024-01-26T12:00:00Z" "%Y-%m-%dT%H:%M:%SZ"
               = Some (Sim.noon_march_1 - Datetime.timedelta_days 35))
    by (vm_compute; reflexivity).
  assert (P4 : Datetime.py_strptime "2024-01-31T12:00:00Z" "%Y-%m-%dT%H:%M:%SZ"
               = Some (Sim.noon_march_1 - Datetime.timedelta_days 30))
    by (vm_compute; reflexivity).
  assert (P2 : Datetime.py_strptime "2024-02-25T12:00:00Z" "%Y-%m-%dT%H:%M:%SZ"
               = Some (Sim.noon_march_1 - Datetime.timedelta_days 5))
    by (vm_compute; reflexivity).
  split; [|split].
  - apply (proj2 (proj1 (proj2 (proj2
      (verdict_is_outdated_and_safe Datetime.py_strptime Sim.noon_march_1
         Sim.cutoff Sim.v3 "2024-01-26T12:00:00Z"
         (Sim.noon_march_1 - Datetime.timedelta_days 35)
         (JList [JStr "poc-x"]) Hsub eq_refl P3 eq_refl))))).
    split; vm_compute; reflexivity.
  - apply (proj1 (proj2 (proj2 (proj2
      (verdict_is_outdated_and_safe Datetime.py_strptime Sim.noon_march_1
         Sim.cutoff Sim.v4 "2024-01-31T12:00:00Z"
         (Sim.noon_march_1 - Datetime.timedelta_days 30)
         (JList []) Hsub eq_refl P4 eq_refl))))).
    vm_compute; reflexivity.
  - apply (proj2 (proj2 (proj2 (proj2 (proj2
      (verdict_is_outdated_and_safe Datetime.py_strptime Sim.noon_march_1
         Sim.cutoff Sim.v2 "2024-02-25T12:00:00Z"
         (Sim.noon_march_1 - Datetime.timedelta_days 5)
         (JList [JStr "prod"]) Hsub eq_refl P2 eq_refl)))))).
    vm_compute; reflexivity.
Defined.

Lemma failed_deletion_ends_run_witness :
  trace_of Sim.refused_run
  = (firstn 5 (trace_of Sim.refused_run)
       ++ [EvDelete "any-xi" (JStr "writing-api") (JInt 1) (inl Sim.refusal)])%list
  /\ result_of Sim.refused_run = inl Sim.refusal.
Proof.
  split; [vm_compute; reflexivity|].
  refine (proj1 (proj2 (failed_deletion_ends_run
            Sim.datetime_now Datetime.py_strptime
            (Sim.cleaner Sim.scenario_rejecting_1) (Sim.start 0)
            (firstn 5 (trace_of Sim.refused_run)) []
            "any-xi" (JStr "writing-api") (JInt 1) Sim.refusal _))).
  vm_compute. reflexivity.
Defined.

(** C1 fails on the code: when the registry refuses to delete version 1,
    version 3 of the same package, whose verdict is "delete", is never
    requested, and the next qualifying package is never listed, while the
    same registry without the refusal has versions 1, 3 and 6 deleted. *)
Lemma failed_deletion_blocks_the_rest :
  nth_error (trace_of Sim.refused_run) 5
  = Some (EvDelete "any-xi" (JStr "writing-api") (JInt 1) (inl Sim.refusal))
  /\ delete_verdicts Datetime.py_strptime (trace_of Sim.refused_run)
     = [(JStr "writing-api", Sim.v1); (JStr "writing-api", Sim.v3)]
  /\ deletions (trace_of Sim.refused_run) = [(JStr "writing-api", JInt 1)]
  /\ listed (trace_of Sim.refused_run) = [JStr "writing-api"]
  /\ deletions (trace_of Sim.complete_run)
     = [(JStr "writing-api", JInt 1); (JStr "writing-api", JInt 3);
        (JStr "writing-web", JInt 6)].
Proof. vm_compute. repeat split. Qed.

Lemma deletions_follow_delete_verdicts_witness :
  map attempted (deletions (trace_of Sim.complete_run))
  = map target (delete_verdicts Datetime.py_strptime (trace_of Sim.complete_run)).
Proof.
  apply (proj1 (proj2 (deletions_follow_delete_verdicts
           Sim.datetime_now Datetime.py_strptime
           (Sim.cleaner Sim.scenario) (Sim.start 0)))).
  vm_compute. reflexivity.
Defined.

(** C6 fails on the code: in the run where the deletion of version 1 is
    refused, version 3 has the verdict "delete" and no deletion is
    requested for it. *)
Lemma refused_deletion_leaves_a_verdict_unserved :
  map attempted (deletions (trace_of Sim.refused_run))
  = [(JStr "writing-api", Ok (JInt 1))]
  /\ map target (delete_verdicts Datetime.py_strptime (trace_of Sim.refused_run))
     = [(JStr "writing-api", Ok (JInt 1)); (JStr "writing-api", Ok (JInt 3))]
  /\ map attempted (deletions (trace_of Sim.refused_run))
     <> map target (delete_verdicts Datetime.py_strptime (trace_of Sim.refused_run)).
Proof. vm_compute. repeat split. discriminate. Qed.

Lemma only_prefixed_packages_are_processed_witness :
  result_of (get_packages (Sim.cleaner Sim.scenario) (Sim.start 0))
  = Ok [Sim.package 10 "writing-api"; Sim.package 11 "writing-web"]
  /\ listed (trace_of Sim.complete_run)
     = package_names
         (filter (name_starts_with "writing-")
            [Sim.package 10 "writing-api"; Sim.package 11 "writing-web";
             Sim.package 12 "other-svc"]).
Proof.
  destruct (only_prefixed_packages_are_processed
              Sim.datetime_now Datetime.py_strptime
              (Sim.cleaner Sim.scenario) (Sim.start 0)) as (_ & _ & H).
  destruct (H (Sim.start 0)
              [Sim.package 10 "writing-api"; Sim.package 11 "writing-web";
               Sim.package 12 "other-svc"] eq_refl) as (H1 & _ & _ & H2).
  split.
  - apply H1. repeat constructor; eexists; reflexivity.
  - apply H2. vm_compute. reflexivity.
Defined.

(** C5 fails on the code: in the run where the deletion of version 1 is
    refused, [writing-web] has the prefix and is kept by [get_packages],
    and its versions are never listed. *)
Lemma refused_deletion_leaves_a_package_unprocessed :
  nth_error (trace_of Sim.refused_run) 0
  = Some (EvPackages "any-xi" (Ok Sim.three_packages))
  /\ result_of (get_packages (Sim.cleaner Sim.scenario_rejecting_1) (Sim.start 0))
     = Ok [Sim.package 10 "writing-api"; Sim.package 11 "writing-web"]
  /\ startswith "writing-web" "writing-" = true
  /\ listed (trace_of Sim.refused_run) = [JStr "writing-api"]
  /\ listed (trace_of Sim.refused_run)
     <> package_names
          (filter (name_starts_with "writing-")
             [Sim.package 10 "writing-api"; Sim.package 11 "writing-web";
              Sim.package 12 "other-svc"]).
Proof. vm_compute. repeat split. discriminate. Qed.

Lemma summary_of_a_run_witness :
  Forall delete_succeeded (trace_of Sim.complete_run)
  /\ nonempty (deletions (trace_of Sim.complete_run))
     = nonempty (delete_verdicts Datetime.py_strptime (trace_of Sim.complete_run)).
Proof.
  exact (proj2 (summary_of_a_run Sim.datetime_now Datetime.py_strptime
                  (Sim.cleaner Sim.scenario) (Sim.start 0))).
Defined.

(** C8 fails on the code: in the run where the deletion of version 1 is
    refused, a deletion was attempted and no summary is printed. *)
Lemma refused_deletion_prints_no_summary :
  deletions (trace_of Sim.refused_run) = [(JStr "writing-api", JInt 1)]
  /\ summaries (trace_of Sim.refused_run) = []
  /\ ~ In (EvPrint MsgDone) (trace_of Sim.refused_run).
Proof.
  vm_compute. repeat split. intros H.
  repeat (destruct H as [H|H]; [discriminate|]). exact H.
Qed.

Lemma clock_is_read_once_per_listing_witness :
  List.length (clock_reads (trace_of Sim.twins_run))
  = List.length (answered (trace_of Sim.twins_run)).
Proof.
  exact (proj2 (clock_is_read_once_per_listing Sim.datetime_now
                  Datetime.py_strptime (Sim.cleaner Sim.twins))
           (Sim.start 1000000)).
Defined.

(** C4 fails on the code: in one run the clock is read twice, at two
    instants; versions 4 and 5 have the same creation time and the same
    tags, and the first is kept while the second is deleted. *)
Lemma two_clock_readings_in_one_run :
  clock_reads (trace_of Sim.twins_run)
  = [Sim.noon_march_1; Sim.noon_march_1 + 1000000]
  /\ getitem Sim.v4 "created_at" = getitem Sim.v5 "created_at"
  /\ version_tags Sim.v4 = version_tags Sim.v5
  /\ delete_verdicts Datetime.py_strptime (trace_of Sim.twins_run)
     = [(JStr "writing-web", Sim.v5)]
  /\ deletions (trace_of Sim.twins_run) = [(JStr "writing-web", JInt 5)]
  /\ result_of Sim.twins_run = Ok tt.
Proof. vm_compute. repeat split. Qed.

Lemma unparsable_created_at_raises_witness :
  version_is_outdated Datetime.py_strptime Sim.cutoff Sim.v7 = Err ValueError
  /\ is_ok (result_of (Sim.run (Sim.scenario_with Sim.v7) (Sim.start 0))) = false.
Proof.
  destruct (unparsable_created_at_raises Sim.datetime_now Datetime.py_strptime
              (Sim.cleaner (Sim.scenario_with Sim.v7)) Sim.v7
              "2024-01-21 12:00:00" eq_refl eq_refl) as (H1 & _ & H3).
  split; [apply H1|].
  apply (H3 (Sim.start 0) "any-xi" (JStr "writing-api")
            (JList [Sim.v1; Sim.v7; Sim.v3]) [Sim.v1; Sim.v7; Sim.v3]).
  - vm_compute. right. right. left. reflexivity.
  - reflexivity.
  - right. left. reflexivity.
Defined.

Lemma missing_tags_raises_witness :
  lacks_tags Sim.v8
  /\ version_is_outdated Datetime.py_strptime Sim.cutoff Sim.v8
     = Err (KeyError (JStr "container"))
  /\ is_ok (result_of (Sim.run (Sim.scenario_with Sim.v8) (Sim.start 0))) = false.
Proof.
  assert (Hlack : lacks_tags Sim.v8).
  { right. exists (JDict [("package_type", JStr "container")]).
    split; [reflexivity|]. left.
    exists [("package_type", JStr "container")]. split; reflexivity. }
  split; [exact Hlack|].
  destruct (missing_tags_raises Sim.datetime_now Datetime.py_strptime
              (Sim.cleaner (Sim.scenario_with Sim.v8)) Sim.v8 Hlack)
    as (_ & _ & _ & H4).
  split; [vm_compute; reflexivity|].
  apply (H4 (Sim.start 0) "any-xi" (JStr "writing-api")
            (JList [Sim.v1; Sim.v8; Sim.v3]) [Sim.v1; Sim.v8; Sim.v3]).
  - vm_compute. right. right. left. reflexivity.
  - reflexivity.
  - right. left. reflexivity.
Defined.

(* ================================================================== *)
(** * Further properties of the code *)

(** ** The entry point *)

Section MainFacts.

Context {W : Type}.
Variable datetime_now : W -> W * Datetime.datetime.
Variable strptime : string -> string -> option Datetime.datetime.
Variable connect : string -> Github W.

(** Without a token, unset or empty, [main] raises [ValueError] before
    anything else happens: no request, no reading of the clock, no output,
    and the world is left as it was. *)
Theorem main_requires_token (env : environ) (w : W) :
  getenv env "GITHUB_TOKEN" = None \/ getenv env "GITHUB_TOKEN" = Some "" ->
  main datetime_now strptime connect env w = (w, [], Err ValueError).
Proof.
  unfold main. intros [H|H]; rewrite H; reflexivity.
Qed.

Lemma main_with_token (env : environ) (token : string) :
  getenv env "GITHUB_TOKEN" = Some token -> token <> "" ->
  main datetime_now strptime connect env
  = clean_outdated_packages datetime_now strptime
      (__init__ connect token
         (getenv_default env "GITHUB_ORG_NAME" "any-xi")
         (getenv_default env "CONTAINER_PREFIX" "writing-")).
Proof.
  intros H Hne. unfold main. rewrite H. cbn [not_token].
  destruct (String.eqb token "") eqn:He; [|reflexivity].
  apply String.eqb_eq in He. contradiction.
Qed.

End MainFacts.

(** ** Requests, one organization, one list of packages *)

Lemma package_requests_app (t1 t2 : list event) :
  package_requests (t1 ++ t2)
  = (package_requests t1 ++ package_requests t2)%list.
Proof.
  induction t1 as [|ev t1 IH]; [reflexivity|].
  destruct ev; cbn; now rewrite IH.
Qed.

Lemma quiet_no_package_request (tr : list event) :
  quiet tr -> package_requests tr = [].
Proof.
  induction 1 as [|ev tr Hev _ IH]; [reflexivity|].
  destruct ev; try destruct Hev; cbn; exact IH.
Qed.

Section ScopeFacts.

Variable strptime : string -> string -> option Datetime.datetime.
Variable org : string.
Variable prefix : string.

Lemma deleting_addressed (name : json) (outdated : list json) (h : bool)
    (tr : list event) (r : result bool) :
  deleting org name outdated h tr r -> addressed_to org tr.
Proof.
  unfold addressed_to.
  induction 1; repeat constructor; cbn; try discriminate; auto;
    intros o' H'; now injection H' as <-.
Qed.

Lemma processing_addressed (pkgs : list json) (h : bool) (tr : list event)
    (r : result bool) :
  processing strptime org pkgs h tr r -> addressed_to org tr.
Proof.
  unfold addressed_to.
  induction 1 as [h|pkg rest h e Hn|pkg rest h name e Hn
                  |pkg rest h name versions now e Hn Hout
                  |pkg rest h name versions now outdated tr e Hn Hout Hdel
                  |pkg rest h h' name versions now outdated tr tr' r
                     Hn Hout Hdel Hrest IH];
    repeat (constructor; [cbn; try discriminate;
                          try (intros o' H'; now injection H' as <-)|]);
    try constructor.
  - now apply deleting_addressed in Hdel.
  - apply Forall_app. split; [now apply deleting_addressed in Hdel | exact IH].
Qed.

Lemma processing_no_package_request (pkgs : list json) (h : bool)
    (tr : list event) (r : result bool) :
  processing strptime org pkgs h tr r -> package_requests tr = [].
Proof.
  induction 1 as [h|pkg rest h e Hn|pkg rest h name e Hn
                  |pkg rest h name versions now e Hn Hout
                  |pkg rest h name versions now outdated tr e Hn Hout Hdel
                  |pkg rest h h' name versions now outdated tr tr' r
                     Hn Hout Hdel Hrest IH]; try reflexivity.
  - cbn. now apply deleting_quiet, quiet_no_package_request in Hdel.
  - cbn. rewrite package_requests_app, IH.
    apply deleting_quiet, quiet_no_package_request in Hdel. now rewrite Hdel.
Qed.

Lemma running_addressed (tr : list event) (r : result unit) :
  running strptime org prefix tr r -> addressed_to org tr.
Proof.
  unfold addressed_to.
  intros [e|packages e Hsel|packages pkgs tr1 e Hsel Hp
          |packages pkgs tr1 h Hsel Hp];
    repeat (constructor; [cbn; try discriminate;
                          try (intros o' H'; now injection H' as <-)|]);
    try constructor.
  - now apply processing_addressed in Hp.
  - apply Forall_app. split; [now apply processing_addressed in Hp|].
    repeat constructor. destruct h; discriminate.
Qed.

Lemma running_one_package_request (tr : list event) (r : result unit) :
  running strptime org prefix tr r ->
  exists answer rest,
    tr = EvPackages org answer :: rest /\ package_requests rest = [].
Proof.
  intros [e|packages e Hsel|packages pkgs tr1 e Hsel Hp
          |packages pkgs tr1 h Hsel Hp]; eexists; eexists;
    (split; [reflexivity|]); try reflexivity.
  - cbn. now apply processing_no_package_request in Hp.
  - cbn. rewrite package_requests_app.
    apply processing_no_package_request in Hp. rewrite Hp. now destruct h.
Qed.

End ScopeFacts.

(** ** The selection of packages, at its edges *)

Lemma comprehension_if_Err (cond : json -> result bool) (items : list json)
    (x : json) :
  In x items -> is_ok (cond x) = false ->
  is_ok (comprehension_if cond items) = false.
Proof.
  induction items as [|y items IH]; intros Hin Hx; [destruct Hin|].
  cbn [comprehension_if].
  destruct (cond y) as [e|b] eqn:Hy; [reflexivity|]. cbn [rbind].
  destruct Hin as [->|Hin]; [rewrite Hy in Hx; discriminate|].
  specialize (IH Hin Hx).
  destruct (comprehension_if cond items); [reflexivity | discriminate].
Qed.

Lemma comprehension_if_none (cond : json -> result bool) (items : list json) :
  Forall (fun x => cond x = Ok false) items ->
  comprehension_if cond items = Ok [].
Proof.
  induction 1 as [|x items Hx _ IH]; [reflexivity|].
  cbn [comprehension_if]. rewrite Hx, IH. reflexivity.
Qed.

Lemma filter_empty_prefix (pkgs : list json) :
  Forall well_formed_package pkgs ->
  filter (name_starts_with "") pkgs = pkgs.
Proof.
  induction 1 as [|x pkgs [s Hx] _ IH]; [reflexivity|].
  cbn [filter]. unfold name_starts_with at 1. rewrite Hx. cbn.
  now rewrite IH.
Qed.

Section EdgeFacts.

Context {W : Type}.
Variable datetime_now : W -> W * Datetime.datetime.
Variable strptime : string -> string -> option Datetime.datetime.
Variable self : GithubPackageCleaner W.

(** [clean_outdated_packages], case by case. *)
Lemma clean_outdated_packages_eq (w : W) :
  clean_outdated_packages datetime_now strptime self w =
  match list_packages (github self) (org_name self) w with
  | (w1, inl e) => (w1, [EvPackages (org_name self) (inl e)], inl e)
  | (w1, inr packages) =>
      match selected (container_prefix self) packages with
      | inl e => (w1, [EvPackages (org_name self) (inr packages)], inl e)
      | inr pkgs =>
          match packages_loop datetime_now strptime self pkgs false w1 with
          | (w2, tr, inl e) =>
              (w2, EvPackages (org_name self) (inr packages)
                     :: EvPrint (MsgFound (package_names pkgs)) :: tr, inl e)
          | (w2, tr, inr h) =>
              (w2, EvPackages (org_name self) (inr packages)
                     :: EvPrint (MsgFound (package_names pkgs))
                     :: tr ++ [EvPrint (if h then MsgDone else MsgNothing)],
               inr tt)
          end
      end
  end.
Proof.
  unfold clean_outdated_packages. unfold mbind at 1.
  rewrite get_packages_eq.
  destruct (list_packages (github self) (org_name self) w)
    as [w1 [e|packages]]; [reflexivity|].
  destruct (selected (container_prefix self) packages) as [e|pkgs] eqn:Hsel;
    [reflexivity|].
  unfold mbind at 1. unfold lift at 1.
  rewrite (selected_names self packages pkgs Hsel). unfold Ok.
  unfold mbind, emit.
  destruct (packages_loop datetime_now strptime self pkgs false w1)
    as [[w2 tr1] [e|h]]; [reflexivity|].
  destruct h; reflexivity.
Qed.

(** When the registry fails to list the packages, that request is the
    whole run: nothing is listed, deleted or printed, and the exception of
    the request is the outcome. *)
Theorem failed_package_listing_is_the_whole_run (w w1 : W) (e : exn) :
  list_packages (github self) (org_name self) w = (w1, Err e) ->
  clean_outdated_packages datetime_now strptime self w
  = (w1, [EvPackages (org_name self) (Err e)], Err e).
Proof.
  intros H. rewrite clean_outdated_packages_eq, H. reflexivity.
Qed.

(** One record of the registry's list on which the test of the name
    raises (no ["name"], a name that is not a string, a record that is
    not an object) makes the selection raise: the run ends after the one
    request, with nothing listed, deleted or printed, whatever the other
    packages are. *)
Theorem malformed_package_stops_the_run (w w1 : W) (packages : json)
    (items : list json) (pkg : json) :
  list_packages (github self) (org_name self) w = (w1, Ok packages) ->
  iter packages = Ok items ->
  In pkg items ->
  is_ok (name_test (container_prefix self) pkg) = false ->
  exists e,
    clean_outdated_packages datetime_now strptime self w
    = (w1, [EvPackages (org_name self) (Ok packages)], Err e).
Proof.
  intros Hl Hit Hin Hbad. rewrite clean_outdated_packages_eq, Hl. unfold Ok.
  assert (Hsel : is_ok (selected (container_prefix self) packages) = false).
  { unfold selected. rewrite Hit. cbn [rbind Ok].
    eapply comprehension_if_Err; eauto. }
  destruct (selected (container_prefix self) packages) as [e|pkgs];
    [|discriminate].
  now exists e.
Qed.

(** When no package of the registry's answer passes the test, the run is
    the request, the (empty) list of packages found and the report that
    nothing is outdated: no versions are listed and the clock is not
    read. *)
Theorem nothing_selected_nothing_done (w w1 : W) (packages : json)
    (items : list json) :
  list_packages (github self) (org_name self) w = (w1, Ok packages) ->
  iter packages = Ok items ->
  Forall (fun pkg => name_test (container_prefix self) pkg = Ok false) items ->
  clean_outdated_packages datetime_now strptime self w
  = (w1, [EvPackages (org_name self) (Ok packages);
          EvPrint (MsgFound []); EvPrint MsgNothing], Ok tt).
Proof.
  intros Hl Hit Hnone. rewrite clean_outdated_packages_eq, Hl. unfold Ok.
  unfold selected. rewrite Hit. cbn [rbind Ok].
  rewrite (comprehension_if_none _ items Hnone). reflexivity.
Qed.

(** With an empty prefix [get_packages] keeps every package of the list:
    the prefix restricts nothing. *)
Theorem empty_prefix_selects_every_package (w w1 : W) (pkgs : list json) :
  container_prefix self = "" ->
  list_packages (github self) (org_name self) w = (w1, Ok (JList pkgs)) ->
  Forall well_formed_package pkgs ->
  get_packages self w
  = (w1, [EvPackages (org_name self) (Ok (JList pkgs))], Ok pkgs).
Proof.
  intros Hp Hl Hwf. rewrite get_packages_eq, Hl. unfold Ok.
  rewrite Hp, (selected_well_formed "" pkgs Hwf).
  now rewrite (filter_empty_prefix pkgs Hwf).
Qed.

(** A listing of versions that fails ends the run: it is the last event,
    its exception is the outcome, and the deletions requested are those
    made before it. *)
Theorem failed_version_listing_ends_run (w : W)
    (before after : list event) (o : string) (n : json) (e : exn) :
  let x := clean_outdated_packages datetime_now strptime self w in
  trace_of x = (before ++ EvVersions o n (inl e) :: after)%list ->
  after = []
  /\ result_of x = inl e
  /\ deletions (trace_of x) = deletions before.
Proof.
  intros x Htr.
  destruct (run_shape datetime_now strptime self w) as [Hrun _].
  apply running_stops in Hrun. fold x in Hrun.
  destruct (stops_at_failure_last _ _ _ _ _ e Hrun Htr eq_refl) as [-> Herr].
  split; [reflexivity|]. split.
  - destruct (result_of x) as [e'|u]; [|discriminate]. now injection Herr as ->.
  - rewrite Htr, deletions_app. cbn. now rewrite app_nil_r.
Qed.

(** The list of packages is requested once, first, and every request of
    the run is addressed to the organization of the cleaner. *)
Theorem one_package_request_one_organization (w : W) :
  let tr := trace_of (clean_outdated_packages datetime_now strptime self w) in
  (exists rest,
      tr = EvPackages (org_name self)
             (snd (list_packages (github self) (org_name self) w)) :: rest
      /\ package_requests rest = [])
  /\ addressed_to (org_name self) tr.
Proof.
  intros tr.
  destruct (run_shape datetime_now strptime self w) as [Hrun [rest Hhead]].
  fold tr in Hrun, Hhead. split.
  - destruct (running_one_package_request _ _ _ _ _ Hrun)
      as (answer & rest' & Htr & Hnone).
    exists rest. split; [exact Hhead|].
    rewrite Htr in Hhead. now injection Hhead as _ <-.
  - eapply running_addressed; eauto.
Qed.

End EdgeFacts.

(** ** What is deleted, and when *)

Lemma last_event_app (prev : option event) (t1 t2 : list event) :
  last_event prev (t1 ++ t2) = last_event (last_event prev t1) t2.
Proof. unfold last_event. apply fold_left_app. Qed.

Lemma last_event_snoc (prev : option event) (tr : list event) (ev : event) :
  last_event prev (tr ++ [ev]) = Some ev.
Proof. now rewrite last_event_app. Qed.

Lemma last_event_None (tr : list event) (ev : event) :
  last_event None tr = Some ev -> exists before, tr = (before ++ [ev])%list.
Proof.
  destruct tr as [|x tr] using rev_ind; [discriminate|].
  rewrite last_event_snoc. intros H. injection H as ->. now exists tr.
Qed.

Lemma announced_app (prev : option event) (t1 t2 : list event) :
  announced prev (t1 ++ t2)
  <-> announced prev t1 /\ announced (last_event prev t1) t2.
Proof.
  revert prev. induction t1 as [|ev t1 IH]; intros prev.
  - cbn. tauto.
  - cbn [app announced]. rewrite IH. cbn. tauto.
Qed.

Lemma is_tags_safe_list (l : list json) :
  is_tags_safe_to_delete (JList l) = Ok true ->
  l = [] \/ exists tag, l = [JStr tag] /\ disposable tag = true.
Proof.
  destruct l as [|x [|y l]].
  - now left.
  - intros H. right. destruct x; try discriminate H.
    exists s. split; [reflexivity|].
    rewrite <- ReFacts.TAMP_TAG_disposable.
    change (Ok (is_not_None (Re.re_match TAMP_TAG s)) = Ok true) in H.
    now injection H.
  - unfold is_tags_safe_to_delete. cbn [truthy negb len rbind Ok List.length].
    destruct (Z.of_nat (S (S (List.length l))) =? 1) eqn:H; [|discriminate].
    apply Z.eqb_eq in H. lia.
Qed.

Section DeletionFacts.

Variable strptime : string -> string -> option Datetime.datetime.

(** A verdict "delete" says that the fields are there, that the version
    is older than the cut-off and that its tags are safe. *)
Lemma version_is_outdated_true (one_month_ago : Datetime.datetime)
    (version : json) :
  version_is_outdated strptime one_month_ago version = Ok true ->
  exists s created_at tags,
    getitem version "created_at" = Ok (JStr s)
    /\ strptime s "%Y-%m-%dT%H:%M:%SZ" = Some created_at
    /\ created_at < one_month_ago
    /\ version_tags version = Ok tags
    /\ is_tags_safe_to_delete tags = Ok true.
Proof.
  unfold version_is_outdated.
  destruct (getitem version "created_at") as [e|c]; [discriminate|].
  cbn [rbind]. destruct c; try discriminate. cbn [parse_created_at].
  destruct (strptime s "%Y-%m-%dT%H:%M:%SZ") as [t|] eqn:Hp; [|discriminate].
  cbn [rbind Ok]. destruct (version_tags version) as [e|tags]; [discriminate|].
  cbn [rbind]. destruct (t <? one_month_ago) eqn:Hlt; [|discriminate].
  apply Z.ltb_lt in Hlt. intros H. now exists s, t, tags.
Qed.

Lemma delete_verdicts_at_In (now : Datetime.datetime) (versions v : json) :
  In v (delete_verdicts_at strptime now versions) ->
  exists items,
    iter versions = Ok items /\ In v items
    /\ version_is_outdated strptime (now - 30 * 86400 * 1000000) v = Ok true.
Proof.
  unfold delete_verdicts_at.
  destruct (Datetime.sub now (Datetime.timedelta_days 30)) as [e|oma] eqn:Hs;
    [intros []|].
  destruct (iter versions) as [e|items]; [intros []|].
  intros Hin. apply filter_In in Hin. destruct Hin as [Hin Hv].
  exists items. split; [reflexivity|]. split; [exact Hin|].
  apply sub_Ok in Hs. rewrite thirty_days in Hs. subst oma.
  unfold verdict_is_delete in Hv.
  destruct (version_is_outdated strptime _ v) as [e|[|]];
    try discriminate. reflexivity.
Qed.

(** A verdict read off a trace comes from a listing answered in it and
    from the reading of the clock that follows that listing. *)
Lemma delete_verdicts_In (tr : list event) (n v : json) :
  In (n, v) (delete_verdicts strptime tr) ->
  exists before o versions now after,
    tr = (before
            ++ EvVersions o n (inr versions) :: EvNow now :: after)%list
    /\ In v (delete_verdicts_at strptime now versions).
Proof.
  induction tr as [|ev tr IH]; [intros []|].
  assert (Hskip : In (n, v) (delete_verdicts strptime tr) ->
                  exists before o versions now after,
                    ev :: tr = (before ++ EvVersions o n (inr versions)
                                  :: EvNow now :: after)%list
                    /\ In v (delete_verdicts_at strptime now versions)).
  { intros H. destruct (IH H) as (b & o & vs & t & a & -> & Hv).
    now exists (ev :: b), o, vs, t, a. }
  destruct ev as [? ?|o m [e|versions]|? ? ? ?|?|?]; cbn [delete_verdicts];
    try exact Hskip.
  destruct tr as [|[? ?|? ? ?|? ? ? ?|now|?] tr']; try exact Hskip.
  intros Hin. apply in_app_or in Hin. destruct Hin as [Hin|Hin];
    [|exact (Hskip Hin)].
  apply in_map_iff in Hin. destruct Hin as (v' & Heq & Hv').
  injection Heq as <- <-.
  now exists [], o, versions, now, tr'.
Qed.

Variable org : string.
Variable prefix : string.

Lemma deleting_announced (name : json) (outdated : list json) (h : bool)
    (tr : list event) (r : result bool) :
  deleting org name outdated h tr r -> forall prev, announced prev tr.
Proof.
  induction 1 as [h|v rest h e Hid|v rest h id e Hid
                  |v rest h id answer tr r Hid Hdel IH]; intros prev; cbn; auto.
Qed.

Lemma processing_announced (pkgs : list json) (h : bool) (tr : list event)
    (r : result bool) :
  processing strptime org pkgs h tr r -> forall prev, announced prev tr.
Proof.
  induction 1 as [h|pkg rest h e Hn|pkg rest h name e Hn
                  |pkg rest h name versions now e Hn Hout
                  |pkg rest h name versions now outdated tr e Hn Hout Hdel
                  |pkg rest h h' name versions now outdated tr tr' r
                     Hn Hout Hdel Hrest IH]; intros prev; cbn; auto.
  - repeat split. now apply (deleting_announced _ _ _ _ _ Hdel).
  - repeat split. apply announced_app. split; [|apply IH].
    now apply (deleting_announced _ _ _ _ _ Hdel).
Qed.

Lemma running_announced (tr : list event) (r : result unit) :
  running strptime org prefix tr r -> announced None tr.
Proof.
  intros [e|packages e Hsel|packages pkgs tr1 e Hsel Hp
          |packages pkgs tr1 h Hsel Hp]; cbn; auto.
  - repeat split. now apply (processing_announced _ _ _ _ Hp).
  - repeat split. apply announced_app. split.
    + now apply (processing_announced _ _ _ _ Hp).
    + cbn. destruct h; auto.
Qed.

Lemma deleting_names (name : json) (outdated : list json) (h : bool)
    (tr : list event) (r : result bool) (o : string) (n i : json)
    (a : result json) :
  deleting org name outdated h tr r -> In (EvDelete o n i a) tr -> n = name.
Proof.
  induction 1 as [h|v rest h e Hid|v rest h id e Hid
                  |v rest h id answer tr r Hid Hdel IH]; intros Hin.
  - destruct Hin.
  - destruct Hin.
  - destruct Hin as [H|[H|[]]]; [discriminate | now injection H].
  - destruct Hin as [H|[H|Hin]]; [discriminate | now injection H | auto].
Qed.

(** A deletion is requested only for a package whose versions were
    listed. *)
Lemma processing_deletes_listed (pkgs : list json) (h : bool)
    (tr : list event) (r : result bool) (o : string) (n i : json)
    (a : result json) :
  processing strptime org pkgs h tr r ->
  In (EvDelete o n i a) tr -> In n (listed tr).
Proof.
  induction 1 as [h|pkg rest h e Hn|pkg rest h name e Hn
                  |pkg rest h name versions now e Hn Hout
                  |pkg rest h name versions now outdated tr e Hn Hout Hdel
                  |pkg rest h h' name versions now outdated tr tr' r
                     Hn Hout Hdel Hrest IH]; intros Hin.
  - destruct Hin.
  - destruct Hin.
  - destruct Hin as [H|[]]; discriminate.
  - destruct Hin as [H|[H|[]]]; discriminate.
  - destruct Hin as [H|[H|Hin]]; try discriminate.
    left. symmetry. eapply deleting_names; eauto.
  - destruct Hin as [H|[H|Hin]]; try discriminate.
    cbn [listed]. rewrite listed_app.
    apply in_app_or in Hin. destruct Hin as [Hin|Hin].
    + left. symmetry. eapply deleting_names; eauto.
    + right. apply in_or_app. right. auto.
Qed.

(** A listing that cannot be evaluated is followed by the reading of the
    clock and by nothing else. *)
Lemma processing_bad_listing_last (pkgs : list json) (h : bool)
    (tr : list event) (r : result bool) (o : string) (n versions : json) :
  processing strptime org pkgs h tr r ->
  In (EvVersions o n (inr versions)) tr ->
  (forall now, is_ok (outdated_at strptime now versions) = false) ->
  exists before now,
    tr = (before ++ [EvVersions o n (inr versions); EvNow now])%list.
Proof.
  intros Hp Hin Hbad.
  induction Hp as [h|pkg rest h e Hn|pkg rest h name e Hn
                  |pkg rest h name vs now e Hn Hout
                  |pkg rest h name vs now outdated tr e Hn Hout Hdel
                  |pkg rest h h' name vs now outdated tr tr' r
                     Hn Hout Hdel Hrest IH].
  - destruct Hin.
  - destruct Hin.
  - destruct Hin as [H|[]]; discriminate.
  - destruct Hin as [H|[H|[]]]; [|discriminate].
    injection H as <- <- <-. now exists [], now.
  - assert (Hq := deleting_quiet _ _ _ _ _ _ Hdel).
    destruct Hin as [H|[H|Hin]]; [| discriminate |].
    + injection H as _ _ ->. specialize (Hbad now).
      rewrite Hout in Hbad. discriminate.
    + unfold quiet in Hq. rewrite Forall_forall in Hq. destruct (Hq _ Hin).
  - assert (Hq := deleting_quiet _ _ _ _ _ _ Hdel).
    destruct Hin as [H|[H|Hin]]; [| discriminate |].
    + injection H as _ _ ->. specialize (Hbad now).
      rewrite Hout in Hbad. discriminate.
    + apply in_app_or in Hin. destruct Hin as [Hin|Hin].
      * unfold quiet in Hq. rewrite Forall_forall in Hq. destruct (Hq _ Hin).
      * destruct (IH Hin) as (b & t & ->).
        exists (EvVersions org name (inr vs) :: EvNow now :: tr ++ b)%list, t.
        cbn. now rewrite <- app_assoc.
Qed.

End DeletionFacts.

Lemma listed_In (tr : list event) (n : json) :
  In n (listed tr) -> exists o a, In (EvVersions o n a) tr.
Proof.
  induction tr as [|ev tr IH]; [intros []|].
  destruct ev as [? ?|o m a|? ? ? ?|?|?]; cbn [listed]; intros Hin;
    try (destruct (IH Hin) as (o' & a' & H); exists o', a'; now right).
  destruct Hin as [->|Hin].
  - exists o, a. now left.
  - destruct (IH Hin) as (o' & a' & H). exists o', a'. now right.
Qed.

(** ** After a listing that cannot be evaluated *)

Lemma quiet_split (t t' before rest : list event) (o : string) (n : json)
    (a : result json) :
  quiet t ->
  (t ++ t')%list = (before ++ EvVersions o n a :: rest)%list ->
  exists before',
    before = (t ++ before')%list
    /\ t' = (before' ++ EvVersions o n a :: rest)%list.
Proof.
  intros Hq. revert before.
  induction Hq as [|y t Hy _ IH]; intros before H.
  - now exists before.
  - destruct before as [|y' before].
    + injection H as -> _. destruct Hy.
    + injection H as <- H. destruct (IH before H) as (b' & -> & ->).
      now exists b'.
Qed.

Lemma quiet_no_listing (t before rest : list event) (o : string) (n : json)
    (a : result json) :
  quiet t -> t <> (before ++ EvVersions o n a :: rest)%list.
Proof.
  intros Hq H. unfold quiet in Hq. rewrite Forall_forall in Hq.
  assert (Hin : In (EvVersions o n a) t)
    by (rewrite H; apply in_or_app; right; now left).
  destruct (Hq _ Hin).
Qed.

Section AfterListing.

Variable strptime : string -> string -> option Datetime.datetime.
Variable org : string.
Variable prefix : string.

(** In the loop over the packages, a listing whose evaluation raises at
    the reading of the clock that follows it is followed by nothing
    more, and the loop raises. *)
Lemma processing_unevaluated_last (pkgs : list json) (h : bool)
    (tr : list event) (r : result bool) :
  processing strptime org pkgs h tr r ->
  forall (before after : list event) (o : string) (n versions : json)
         (now : Datetime.datetime),
    tr = (before ++ EvVersions o n (inr versions) :: EvNow now :: after)%list ->
    is_ok (outdated_at strptime now versions) = false ->
    after = [] /\ is_ok r = false.
Proof.
  induction 1 as [h|pkg rest h e Hn|pkg rest h name e Hn
                  |pkg rest h name vs t e Hn Hout
                  |pkg rest h name vs t outdated tr e Hn Hout Hdel
                  |pkg rest h h' name vs t outdated tr tr' r
                     Hn Hout Hdel Hrest IH];
    intros before after o n versions now Htr Hbad.
  - destruct before; discriminate.
  - destruct before; discriminate.
  - destruct before as [|x [|y before]]; discriminate.
  - destruct before as [|x [|y [|z before]]]; try discriminate.
    injection Htr as _ _ _ _ <-. now split.
  - destruct before as [|x [|y before]]; try discriminate.
    + injection Htr as _ _ <- <- _. rewrite Hout in Hbad. discriminate.
    + injection Htr as _ _ Htr. apply deleting_quiet in Hdel.
      now apply quiet_no_listing in Htr.
  - destruct before as [|x [|y before]]; try discriminate.
    + injection Htr as _ _ <- <- _. rewrite Hout in Hbad. discriminate.
    + injection Htr as _ _ Htr. apply deleting_quiet in Hdel.
      destruct (quiet_split _ _ _ _ _ _ _ Hdel Htr) as (b' & _ & Htr').
      eapply IH; eauto.
Qed.

(** An answered listing is followed by a reading of the clock. *)
Lemma processing_listing_then_clock (pkgs : list json) (h : bool)
    (tr : list event) (r : result bool) (o : string) (n versions : json) :
  processing strptime org pkgs h tr r ->
  In (EvVersions o n (inr versions)) tr ->
  exists before now after,
    tr = (before ++ EvVersions o n (inr versions) :: EvNow now :: after)%list.
Proof.
  induction 1 as [h|pkg rest h e Hn|pkg rest h name e Hn
                  |pkg rest h name vs t e Hn Hout
                  |pkg rest h name vs t outdated tr e Hn Hout Hdel
                  |pkg rest h h' name vs t outdated tr tr' r
                     Hn Hout Hdel Hrest IH]; intros Hin.
  - destruct Hin.
  - destruct Hin.
  - destruct Hin as [H|[]]; discriminate.
  - destruct Hin as [H|[H|[]]]; [|discriminate].
    injection H as <- <- <-. now exists [], t, [].
  - destruct Hin as [H|[H|Hin]]; [| discriminate |].
    + injection H as <- <- <-. now exists [], t, tr.
    + apply deleting_quiet in Hdel. unfold quiet in Hdel.
      rewrite Forall_forall in Hdel. destruct (Hdel _ Hin).
  - destruct Hin as [H|[H|Hin]]; [| discriminate |].
    + injection H as <- <- <-. now exists [], t, (tr ++ tr')%list.
    + apply in_app_or in Hin. destruct Hin as [Hin|Hin].
      * apply deleting_quiet in Hdel. unfold quiet in Hdel.
        rewrite Forall_forall in Hdel. destruct (Hdel _ Hin).
      * destruct (IH Hin) as (b & t' & a & ->).
        exists (EvVersions org name (inr vs) :: EvNow t :: tr ++ b)%list, t', a.
        cbn. now rewrite <- app_assoc.
Qed.

Lemma running_unevaluated_last (tr : list event) (r : result unit)
    (before after : list event) (o : string) (n versions : json)
    (now : Datetime.datetime) :
  running strptime org prefix tr r ->
  tr = (before ++ EvVersions o n (inr versions) :: EvNow now :: after)%list ->
  is_ok (outdated_at strptime now versions) = false ->
  after = [] /\ is_ok r = false.
Proof.
  intros [e|packages e Hsel|packages pkgs tr1 e Hsel Hp
          |packages pkgs tr1 h Hsel Hp] Htr Hbad.
  - destruct before as [|x [|y before]]; discriminate.
  - destruct before as [|x [|y before]]; discriminate.
  - destruct before as [|x [|y before]]; try discriminate.
    injection Htr as _ _ Htr.
    destruct (processing_unevaluated_last _ _ _ _ Hp _ _ _ _ _ _ Htr Hbad)
      as [Hafter _].
    now split.
  - destruct before as [|x [|y before]]; try discriminate.
    injection Htr as _ _ Htr.
    assert (Hne : EvVersions o n (inr versions) :: EvNow now :: after <> [])
      by discriminate.
    destruct (exists_last Hne) as (c & s & Hc).
    rewrite Hc, app_assoc in Htr. apply app_inj_tail in Htr.
    destruct Htr as [Htr Hs].
    destruct c as [|c1 [|c2 c]].
    + discriminate Hc.
    + injection Hc as _ Hc _. rewrite <- Hc in Hs. destruct h; discriminate.
    + injection Hc as <- <- _.
      destruct (processing_unevaluated_last _ _ _ _ Hp _ _ _ _ _ _ Htr Hbad)
        as [_ Habs].
      discriminate.
Qed.

Lemma running_listing_then_clock (tr : list event) (r : result unit)
    (o : string) (n versions : json) :
  running strptime org prefix tr r ->
  In (EvVersions o n (inr versions)) tr ->
  exists before now after,
    tr = (before ++ EvVersions o n (inr versions) :: EvNow now :: after)%list.
Proof.
  intros [e|packages e Hsel|packages pkgs tr1 e Hsel Hp
          |packages pkgs tr1 h Hsel Hp] Hin.
  - destruct Hin as [H|[]]; discriminate.
  - destruct Hin as [H|[]]; discriminate.
  - destruct Hin as [H|[H|Hin]]; try discriminate.
    destruct (processing_listing_then_clock _ _ _ _ _ _ _ Hp Hin)
      as (b & t & a & ->).
    now exists (EvPackages org (inr packages)
                  :: EvPrint (MsgFound (package_names pkgs)) :: b), t, a.
  - destruct Hin as [H|[H|Hin]]; try discriminate.
    apply in_app_or in Hin. destruct Hin as [Hin|[H|[]]]; [|discriminate].
    destruct (processing_listing_then_clock _ _ _ _ _ _ _ Hp Hin)
      as (b & t & a & ->).
    exists (EvPackages org (inr packages)
              :: EvPrint (MsgFound (package_names pkgs)) :: b), t,
           (a ++ [EvPrint (if h then MsgDone else MsgNothing)])%list.
    cbn. now rewrite <- app_assoc.
Qed.

(** One version whose evaluation raises at the cut-off of a reading of
    the clock leaves the listing without a result at that reading. *)
Lemma faulty_version_no_result (now : Datetime.datetime) (versions : json)
    (items : list json) (v : json) :
  iter versions = Ok items -> In v items ->
  is_ok (version_is_outdated strptime (now - 30 * 86400 * 1000000) v) = false ->
  is_ok (outdated_at strptime now versions) = false.
Proof.
  intros Hit Hin Hv. unfold outdated_at.
  destruct (Datetime.sub now (Datetime.timedelta_days 30)) as [e|oma] eqn:Hs;
    [reflexivity|]. cbn [rbind]. rewrite Hit. cbn [rbind Ok].
  apply sub_Ok in Hs. rewrite thirty_days in Hs. subst oma.
  eapply outdated_loop_Err; eauto.
Qed.

End AfterListing.

Section FurtherFacts.

Context {W : Type}.
Variable datetime_now : W -> W * Datetime.datetime.
Variable strptime : string -> string -> option Datetime.datetime.
Variable self : GithubPackageCleaner W.

(** A deletion is requested only for a package whose versions were listed
    in the run, so for a package whose name starts with the prefix. *)
Lemma deletions_within_prefix (w : W) (o : string) (n i : json)
    (a : result json) :
  In (EvDelete o n i a)
     (trace_of (clean_outdated_packages datetime_now strptime self w)) ->
  exists s, n = JStr s /\ startswith s (container_prefix self) = true.
Proof.
  destruct (run_shape datetime_now strptime self w) as [Hrun _].
  intros Hin.
  assert (Hl : In n (listed (trace_of
            (clean_outdated_packages datetime_now strptime self w)))).
  { revert Hin.
    destruct Hrun as [e|packages e Hsel|packages pkgs tr1 e Hsel Hp
                      |packages pkgs tr1 h Hsel Hp]; intros Hin.
    - destruct Hin as [H|[]]; discriminate.
    - destruct Hin as [H|[]]; discriminate.
    - destruct Hin as [H|[H|Hin]]; try discriminate.
      cbn [listed]. eapply processing_deletes_listed; eauto.
    - destruct Hin as [H|[H|Hin]]; try discriminate.
      cbn [listed]. rewrite listed_app. apply in_or_app. left.
      apply in_app_or in Hin. destruct Hin as [Hin|[H|[]]]; [|discriminate].
      eapply processing_deletes_listed; eauto. }
  apply listed_In in Hl. destruct Hl as (o' & a' & Hl).
  eapply running_only_prefixed; eauto.
Qed.

(** Every deletion requested, in any run, is the deletion of a version
    that an answered listing of that package holds, whose [created_at] is
    strictly more than 30 days before the reading of the clock that
    follows the listing, and whose tags [is_tags_safe_to_delete] accepts:
    when the tags are a list, it is empty or holds one disposable tag. *)
Theorem only_old_and_safe_versions_are_deleted (w : W) (n i : json) :
  let tr := trace_of (clean_outdated_packages datetime_now strptime self w) in
  In (n, i) (deletions tr) ->
  exists before o versions now after items v s created_at tags,
    tr = (before ++ EvVersions o n (inr versions) :: EvNow now :: after)%list
    /\ iter versions = Ok items /\ In v items
    /\ getitem v "id" = Ok i
    /\ getitem v "created_at" = Ok (JStr s)
    /\ strptime s "%Y-%m-%dT%H:%M:%SZ" = Some created_at
    /\ created_at < now - 30 * 86400 * 1000000
    /\ version_tags v = Ok tags
    /\ is_tags_safe_to_delete tags = Ok true
    /\ (forall l, tags = JList l ->
          l = [] \/ exists tag, l = [JStr tag] /\ disposable tag = true).
Proof.
  intros tr Hin.
  destruct (run_shape datetime_now strptime self w) as [Hrun _].
  fold tr in Hrun.
  destruct (running_deletions _ _ _ _ _ Hrun) as [Hseg _].
  assert (Ht : In (attempted (n, i)) (map target (delete_verdicts strptime tr))).
  { eapply initial_segment_In; [exact Hseg|]. now apply in_map. }
  apply in_map_iff in Ht. destruct Ht as ([n' v] & Heq & Hv).
  unfold target, attempted in Heq. cbn [fst snd] in Heq.
  injection Heq as -> Hid.
  apply delete_verdicts_In in Hv.
  destruct Hv as (before & o & versions & now & after & Htr & Hv).
  apply delete_verdicts_at_In in Hv. destruct Hv as (items & Hit & Hvi & Hv).
  apply version_is_outdated_true in Hv.
  destruct Hv as (s & c & tags & Hc & Hp & Hlt & Htags & Hsafe).
  exists before, o, versions, now, after, items, v, s, c, tags.
  repeat (split; [assumption|]).
  intros l ->. now apply is_tags_safe_list.
Qed.

(** A listing that holds a version whose evaluation raises is followed by
    the reading of the clock and by nothing else: no version of that
    listing is deleted, not even those listed before the faulty one, no
    later package is processed, and the run ends with an exception.  The
    evaluation meant is the one of the run, at the cut-off of the reading
    of the clock that follows the listing; every answered listing is
    followed by such a reading. *)
Theorem faulty_listing_is_followed_by_nothing (w : W) (o : string)
    (n versions : json) :
  let x := clean_outdated_packages datetime_now strptime self w in
  (In (EvVersions o n (inr versions)) (trace_of x) ->
   exists before now after,
     trace_of x
     = (before ++ EvVersions o n (inr versions) :: EvNow now :: after)%list)
  /\ (forall (before after : list event) (now : Datetime.datetime)
             (items : list json) (v : json),
        trace_of x
        = (before ++ EvVersions o n (inr versions) :: EvNow now :: after)%list ->
        iter versions = Ok items -> In v items ->
        is_ok (version_is_outdated strptime (now - 30 * 86400 * 1000000) v)
        = false ->
        after = [] /\ is_ok (result_of x) = false).
Proof.
  intros x.
  destruct (run_shape datetime_now strptime self w) as [Hrun _].
  fold x in Hrun. split.
  - intros Hin. eapply running_listing_then_clock; eauto.
  - intros before after now items v Htr Hit Hin Hv.
    eapply running_unevaluated_last; [exact Hrun | exact Htr |].
    eapply faulty_version_no_result; eauto.
Qed.

(** Every deletion requested comes right after the line that announces
    it, for the same package and the same version id. *)
Theorem every_deletion_is_announced (w : W) (before after : list event)
    (o : string) (n i : json) (a : result json) :
  trace_of (clean_outdated_packages datetime_now strptime self w)
  = (before ++ EvDelete o n i a :: after)%list ->
  exists before', before = (before' ++ [EvPrint (MsgDeleting n i)])%list.
Proof.
  intros Htr.
  destruct (run_shape datetime_now strptime self w) as [Hrun _].
  apply running_announced in Hrun. rewrite Htr in Hrun.
  apply announced_app in Hrun. destruct Hrun as [_ [Hlast _]].
  now apply last_event_None.
Qed.

(** A version with the verdict "delete" and no ["id"] ends the run with
    an exception. *)
Theorem delete_verdict_without_id_ends_run (w : W) (n v : json) :
  let x := clean_outdated_packages datetime_now strptime self w in
  In (n, v) (delete_verdicts strptime (trace_of x)) ->
  is_ok (getitem v "id") = false ->
  is_ok (result_of x) = false.
Proof.
  intros x Hin Hid.
  destruct (run_shape datetime_now strptime self w) as [Hrun _].
  fold x in Hrun.
  destruct (running_deletions _ _ _ _ _ Hrun) as [_ Heq].
  destruct (is_ok (result_of x)); [|reflexivity].
  specialize (Heq eq_refl).
  apply (in_map target) in Hin. rewrite <- Heq in Hin.
  apply in_map_iff in Hin. destruct Hin as ([n' i'] & H & _).
  unfold attempted, target in H. cbn [fst snd] in H.
  injection H as _ H. rewrite <- H in Hid. discriminate.
Qed.

End FurtherFacts.

(** With a token, every request [main] sends is addressed to the
    organization of [GITHUB_ORG_NAME] (["any-xi"] when it is not set), and
    versions are listed and deleted only in packages whose name starts
    with the value of [CONTAINER_PREFIX] (["writing-"] when it is not
    set). *)
Theorem main_stays_in_scope {W : Type}
    (datetime_now : W -> W * Datetime.datetime)
    (strptime : string -> string -> option Datetime.datetime)
    (connect : string -> Github W) (env : environ) (token : string) (w : W) :
  getenv env "GITHUB_TOKEN" = Some token -> token <> "" ->
  let tr := trace_of (main datetime_now strptime connect env w) in
  let org := getenv_default env "GITHUB_ORG_NAME" "any-xi" in
  let prefix := getenv_default env "CONTAINER_PREFIX" "writing-" in
  addressed_to org tr
  /\ (forall o n a, In (EvVersions o n a) tr ->
        exists s, n = JStr s /\ startswith s prefix = true)
  /\ (forall o n i a, In (EvDelete o n i a) tr ->
        exists s, n = JStr s /\ startswith s prefix = true).
Proof.
  intros Ht Hne tr org prefix. unfold tr.
  rewrite (main_with_token datetime_now strptime connect env token Ht Hne).
  fold org. fold prefix.
  set (self := __init__ connect token org prefix).
  destruct (run_shape datetime_now strptime self w) as [Hrun _].
  split; [|split].
  - exact (running_addressed _ _ _ _ _ Hrun).
  - intros o n a Hin. exact (running_only_prefixed _ _ _ _ _ _ _ _ Hrun Hin).
  - intros o n i a Hin.
    exact (deletions_within_prefix datetime_now strptime self w o n i a Hin).
Qed.

(** [is_tags_safe_to_delete] outside lists of strings: a single tag that
    is not a string raises [TypeError]; on a list of strings it never
    raises; a truthy number or [True] raises [TypeError]; every falsy
    value is safe. *)
Theorem is_tags_safe_to_delete_on_other_values :
  (forall x : json,
      is_tags_safe_to_delete (JList [x])
      = match x with
        | JStr tag => Ok (disposable tag)
        | _ => Err TypeError
        end)
  /\ (forall tags : list string,
        is_ok (is_tags_safe_to_delete (JList (map JStr tags))) = true)
  /\ (forall n : Z,
        is_tags_safe_to_delete (JInt n)
        = if n =? 0 then Ok true else Err TypeError)
  /\ is_tags_safe_to_delete (JBool true) = Err TypeError
  /\ (forall tags : json,
        truthy tags = false -> is_tags_safe_to_delete tags = Ok true).
Proof.
  split; [|split; [|split; [|split]]].
  - intros x. destruct x; try reflexivity.
    change (Ok (is_not_None (Re.re_match TAMP_TAG s)) = Ok (disposable s)).
    now rewrite ReFacts.TAMP_TAG_disposable.
  - intros [|t [|t' tags]]; try reflexivity.
    unfold is_tags_safe_to_delete.
    cbn [map truthy negb len rbind Ok List.length].
    destruct (Z.of_nat (S (S (List.length (map JStr tags)))) =? 1);
      reflexivity.
  - intros n. unfold is_tags_safe_to_delete. cbn [truthy].
    destruct (n =? 0); reflexivity.
  - reflexivity.
  - intros tags H. unfold is_tags_safe_to_delete. now rewrite H.
Qed.

(** ** Listings that are evaluated without an exception *)

Lemma is_tags_safe_strings (tags : list string) :
  is_ok (is_tags_safe_to_delete (JList (map JStr tags))) = true.
Proof.
  destruct tags as [|t [|t' tags]]; try reflexivity.
  unfold is_tags_safe_to_delete.
  cbn [map truthy negb len rbind Ok List.length].
  destruct (Z.of_nat (S (S (List.length (map JStr tags)))) =? 1); reflexivity.
Qed.

Lemma well_formed_version_has_verdict
    (strptime : string -> string -> option Datetime.datetime)
    (one_month_ago : Datetime.datetime) (version : json) :
  well_formed_version strptime version ->
  is_ok (version_is_outdated strptime one_month_ago version) = true.
Proof.
  intros (s & c & tags & Hc & Hp & Ht & Hshape).
  rewrite (version_is_outdated_fields strptime one_month_ago version s c tags
             Hc Hp Ht).
  destruct (c <? one_month_ago); [|reflexivity].
  destruct Hshape as [->|[ts ->]]; [reflexivity | apply is_tags_safe_strings].
Qed.

Lemma outdated_loop_total
    (strptime : string -> string -> option Datetime.datetime)
    (one_month_ago : Datetime.datetime) (items acc : list json) :
  Forall (fun v => is_ok (version_is_outdated strptime one_month_ago v) = true)
         items ->
  outdated_loop strptime one_month_ago items acc
  = Ok (acc ++ filter (verdict_is_delete strptime one_month_ago) items)%list.
Proof.
  intros H. revert acc.
  induction H as [|v items Hv _ IH]; intros acc; cbn [outdated_loop filter].
  - now rewrite app_nil_r.
  - unfold verdict_is_delete at 1.
    destruct (version_is_outdated strptime one_month_ago v) as [e|b];
      [discriminate|]. cbn [rbind]. rewrite IH.
    destruct b; [|reflexivity]. now rewrite <- app_assoc.
Qed.

(** On a listing of well-formed version records, read when the clock is
    at least 30 days after [datetime.min], [get_outdated_versions] raises
    nothing: it returns the versions older than 30 days with safe tags, in
    the order listed, after one request and one reading of the clock. *)
Theorem well_formed_listing_is_evaluated {W : Type}
    (datetime_now : W -> W * Datetime.datetime)
    (strptime : string -> string -> option Datetime.datetime)
    (self : GithubPackageCleaner W) (pkg_name : json) (w w1 w2 : W)
    (items : list json) (now one_month_ago : Datetime.datetime) :
  list_versions (github self) (org_name self) pkg_name w = (w1, Ok (JList items)) ->
  datetime_now w1 = (w2, now) ->
  Datetime.sub now (Datetime.timedelta_days 30) = Ok one_month_ago ->
  Forall (well_formed_version strptime) items ->
  get_outdated_versions datetime_now strptime self pkg_name w
  = (w2, [EvVersions (org_name self) pkg_name (Ok (JList items)); EvNow now],
     Ok (filter (verdict_is_delete strptime one_month_ago) items)).
Proof.
  intros Hl Hnow Hsub Hwf.
  rewrite get_outdated_versions_eq, Hl. unfold Ok. rewrite Hnow.
  unfold outdated_at. rewrite Hsub. cbn [rbind Ok iter].
  rewrite outdated_loop_total; [reflexivity|].
  eapply Forall_impl; [|exact Hwf].
  intros v Hv. now apply well_formed_version_has_verdict.
Qed.

(** ** Concrete runs for the further properties *)

Lemma main_requires_token_witness :
  main Sim.datetime_now Datetime.py_strptime (fun _ => Sim.gh Sim.scenario)
    [("GITHUB_ORG_NAME", "any-xi"); ("GITHUB_TOKEN", "")] (Sim.start 0)
  = (Sim.start 0, [], Err ValueError).
Proof.
  apply (main_requires_token Sim.datetime_now Datetime.py_strptime
           (fun _ => Sim.gh Sim.scenario)).
  right. reflexivity.
Defined.

Lemma failed_package_listing_is_the_whole_run_witness :
  clean_outdated_packages Sim.datetime_now Datetime.py_strptime
    (Sim.cleaner Sim.unauthorized) (Sim.start 0)
  = (Sim.start 0, [EvPackages "any-xi" (Err (GithubException 401))],
     Err (GithubException 401)).
Proof.
  apply (failed_package_listing_is_the_whole_run Sim.datetime_now
           Datetime.py_strptime (Sim.cleaner Sim.unauthorized)).
  reflexivity.
Defined.

Lemma malformed_package_stops_the_run_witness :
  exists e,
    clean_outdated_packages Sim.datetime_now Datetime.py_strptime
      (Sim.cleaner Sim.scenario_nameless) (Sim.start 0)
    = (Sim.start 0,
       [EvPackages "any-xi"
          (Ok (JList [Sim.package 10 "writing-api"; Sim.nameless]))],
       Err e).
Proof.
  apply (malformed_package_stops_the_run Sim.datetime_now Datetime.py_strptime
           (Sim.cleaner Sim.scenario_nameless) (Sim.start 0) (Sim.start 0)
           (JList [Sim.package 10 "writing-api"; Sim.nameless])
           [Sim.package 10 "writing-api"; Sim.nameless] Sim.nameless).
  - reflexivity.
  - reflexivity.
  - right. left. reflexivity.
  - reflexivity.
Defined.

Lemma nothing_selected_nothing_done_witness :
  clean_outdated_packages Sim.datetime_now Datetime.py_strptime
    (Sim.cleaner Sim.scenario_others) (Sim.start 0)
  = (Sim.start 0,
     [EvPackages "any-xi" (Ok (JList [Sim.package 12 "other-svc"]));
      EvPrint (MsgFound []); EvPrint MsgNothing], Ok tt).
Proof.
  apply (nothing_selected_nothing_done Sim.datetime_now Datetime.py_strptime
           (Sim.cleaner Sim.scenario_others) (Sim.start 0) (Sim.start 0)
           (JList [Sim.package 12 "other-svc"]) [Sim.package 12 "other-svc"]).
  - reflexivity.
  - reflexivity.
  - repeat constructor.
Defined.

Lemma empty_prefix_selects_every_package_witness :
  get_packages (Sim.cleaner_with Sim.scenario "") (Sim.start 0)
  = (Sim.start 0, [EvPackages "any-xi" (Ok Sim.three_packages)],
     Ok [Sim.package 10 "writing-api"; Sim.package 11 "writing-web";
         Sim.package 12 "other-svc"]).
Proof.
  apply (empty_prefix_selects_every_package
           (Sim.cleaner_with Sim.scenario "") (Sim.start 0) (Sim.start 0)).
  - reflexivity.
  - reflexivity.
  - repeat constructor; eexists; reflexivity.
Defined.

Lemma failed_version_listing_ends_run_witness :
  result_of (clean_outdated_packages Sim.datetime_now Datetime.py_strptime
               (Sim.cleaner Sim.scenario_web_down) (Sim.start 0))
  = inl (GithubException 502)
  /\ deletions
       (trace_of (clean_outdated_packages Sim.datetime_now Datetime.py_strptime
                    (Sim.cleaner Sim.scenario_web_down) (Sim.start 0)))
     = deletions
         (firstn 8
            (trace_of (clean_outdated_packages Sim.datetime_now
                         Datetime.py_strptime
                         (Sim.cleaner Sim.scenario_web_down) (Sim.start 0)))).
Proof.
  assert (H : trace_of (clean_outdated_packages Sim.datetime_now
                          Datetime.py_strptime
                          (Sim.cleaner Sim.scenario_web_down) (Sim.start 0))
              = (firstn 8
                   (trace_of (clean_outdated_packages Sim.datetime_now
                                Datetime.py_strptime
                                (Sim.cleaner Sim.scenario_web_down)
                                (Sim.start 0)))
                   ++ EvVersions "any-xi" (JStr "writing-web")
                        (inl (GithubException 502)) :: [])%list)
    by (vm_compute; reflexivity).
  exact (proj2 (failed_version_listing_ends_run Sim.datetime_now
                  Datetime.py_strptime (Sim.cleaner Sim.scenario_web_down)
                  (Sim.start 0) _ [] "any-xi" (JStr "writing-web")
                  (GithubException 502) H)).
Defined.

Lemma only_old_and_safe_versions_are_deleted_witness :
  exists v tags,
    getitem v "id" = Ok (JInt 3)
    /\ version_tags v = Ok tags
    /\ is_tags_safe_to_delete tags = Ok true.
Proof.
  assert (H : In (JStr "writing-api", JInt 3)
                (deletions
                   (trace_of (clean_outdated_packages Sim.datetime_now
                                Datetime.py_strptime
                                (Sim.cleaner Sim.scenario) (Sim.start 0)))))
    by (vm_compute; right; left; reflexivity).
  destruct (only_old_and_safe_versions_are_deleted Sim.datetime_now
              Datetime.py_strptime (Sim.cleaner Sim.scenario) (Sim.start 0)
              (JStr "writing-api") (JInt 3) H)
    as (before & o & versions & now & after & items & v & s & c & tags
        & Htr & Hit & Hin & Hid & _ & _ & _ & Htags & Hsafe & _).
  exists v, tags. repeat split; assumption.
Defined.

Lemma faulty_listing_is_followed_by_nothing_witness :
  version_is_outdated Datetime.py_strptime Sim.cutoff Sim.v10 = Err TypeError
  /\ version_is_outdated Datetime.py_strptime 0 Sim.v10 = Ok false
  /\ is_ok (result_of (clean_outdated_packages Sim.datetime_now
                         Datetime.py_strptime
                         (Sim.cleaner (Sim.scenario_with Sim.v10))
                         (Sim.start 0)))
     = false.
Proof.
  split; [vm_compute; reflexivity|]. split; [vm_compute; reflexivity|].
  assert (Htr : trace_of (clean_outdated_packages Sim.datetime_now
                            Datetime.py_strptime
                            (Sim.cleaner (Sim.scenario_with Sim.v10))
                            (Sim.start 0))
                = ([EvPackages "any-xi" (Ok Sim.three_packages);
                    EvPrint (MsgFound [JStr "writing-api"; JStr "writing-web"])]
                     ++ EvVersions "any-xi" (JStr "writing-api")
                          (inr (JList [Sim.v1; Sim.v10; Sim.v3]))
                     :: EvNow Sim.noon_march_1 :: [])%list)
    by (vm_compute; reflexivity).
  assert (Hv : is_ok (version_is_outdated Datetime.py_strptime
                        (Sim.noon_march_1 - 30 * 86400 * 1000000) Sim.v10)
               = false) by (vm_compute; reflexivity).
  assert (Hin : In Sim.v10 [Sim.v1; Sim.v10; Sim.v3])
    by (right; left; reflexivity).
  exact (proj2 (proj2 (faulty_listing_is_followed_by_nothing Sim.datetime_now
                         Datetime.py_strptime
                         (Sim.cleaner (Sim.scenario_with Sim.v10))
                         (Sim.start 0) "any-xi" (JStr "writing-api")
                         (JList [Sim.v1; Sim.v10; Sim.v3]))
                  _ [] Sim.noon_march_1 [Sim.v1; Sim.v10; Sim.v3] Sim.v10
                  Htr eq_refl Hin Hv)).
Defined.

Lemma every_deletion_is_announced_witness :
  exists before',
    firstn 5 (trace_of (clean_outdated_packages Sim.datetime_now
                          Datetime.py_strptime
                          (Sim.cleaner Sim.scenario_rejecting_1) (Sim.start 0)))
    = (before' ++ [EvPrint (MsgDeleting (JStr "writing-api") (JInt 1))])%list.
Proof.
  assert (H : trace_of (clean_outdated_packages Sim.datetime_now
                          Datetime.py_strptime
                          (Sim.cleaner Sim.scenario_rejecting_1) (Sim.start 0))
              = (firstn 5
                   (trace_of (clean_outdated_packages Sim.datetime_now
                                Datetime.py_strptime
                                (Sim.cleaner Sim.scenario_rejecting_1)
                                (Sim.start 0)))
                   ++ EvDelete "any-xi" (JStr "writing-api") (JInt 1)
                        (inl Sim.refusal) :: [])%list)
    by (vm_compute; reflexivity).
  exact (every_deletion_is_announced Sim.datetime_now Datetime.py_strptime
           (Sim.cleaner Sim.scenario_rejecting_1) (Sim.start 0)
           _ [] "any-xi" (JStr "writing-api") (JInt 1) (inl Sim.refusal) H).
Defined.

Lemma delete_verdict_without_id_ends_run_witness :
  is_ok (result_of (clean_outdated_packages Sim.datetime_now
                      Datetime.py_strptime
                      (Sim.cleaner (Sim.scenario_with Sim.v9)) (Sim.start 0)))
  = false.
Proof.
  refine (delete_verdict_without_id_ends_run Sim.datetime_now
            Datetime.py_strptime (Sim.cleaner (Sim.scenario_with Sim.v9))
            (Sim.start 0) (JStr "writing-api") Sim.v9 _ eq_refl).
  vm_compute. right. left. reflexivity.
Defined.

Lemma main_stays_in_scope_witness :
  addressed_to "any-xi"
    (trace_of (main Sim.datetime_now Datetime.py_strptime
                 (fun _ => Sim.gh Sim.scenario) Sim.token_only (Sim.start 0))).
Proof.
  refine (proj1 (main_stays_in_scope Sim.datetime_now Datetime.py_strptime
                   (fun _ => Sim.gh Sim.scenario) Sim.token_only "ghp_example"
                   (Sim.start 0) eq_refl _)).
  discriminate.
Defined.

Lemma is_tags_safe_to_delete_on_other_values_witness :
  is_tags_safe_to_delete (JDict []) = Ok true.
Proof.
  apply (proj2 (proj2 (proj2 (proj2 is_tags_safe_to_delete_on_other_values)))).
  reflexivity.
Defined.

Lemma well_formed_listing_is_evaluated_witness :
  get_outdated_versions Sim.datetime_now Datetime.py_strptime
    (Sim.cleaner Sim.scenario) (JStr "writing-api") (Sim.start 0)
  = (Sim.start 0,
     [EvVersions "any-xi" (JStr "writing-api")
        (Ok (JList [Sim.v1; Sim.v2; Sim.v3]));
      EvNow Sim.noon_march_1],
     Ok (filter (verdict_is_delete Datetime.py_strptime Sim.cutoff)
           [Sim.v1; Sim.v2; Sim.v3])).
Proof.
  assert (Hsub : Datetime.sub Sim.noon_march_1 (Datetime.timedelta_days 30)
                 = Ok Sim.cutoff) by (vm_compute; reflexivity).
  assert (P1 : Datetime.py_strptime "2024-01-21T12:00:00Z" "%Y-%m-%dT%H:%M:%SZ"
               = Some (Sim.noon_march_1 - Datetime.timedelta_days 40))
    by (vm_compute; reflexivity).
  assert (P2 : Datetime.py_strptime "2024-02-25T12:00:00Z" "%Y-%m-%dT%H:%M:%SZ"
               = Some (Sim.noon_march_1 - Datetime.timedelta_days 5))
    by (vm_compute; reflexivity).
  assert (P3 : Datetime.py_strptime "2024-01-26T12:00:00Z" "%Y-%m-%dT%H:%M:%SZ"
               = Some (Sim.noon_march_1 - Datetime.timedelta_days 35))
    by (vm_compute; reflexivity).
  apply (well_formed_listing_is_evaluated Sim.datetime_now Datetime.py_strptime
           (Sim.cleaner Sim.scenario) (JStr "writing-api")
           (Sim.start 0) (Sim.start 0) (Sim.start 0)
           [Sim.v1; Sim.v2; Sim.v3] Sim.noon_march_1 Sim.cutoff).
  - reflexivity.
  - reflexivity.
  - exact Hsub.
  - repeat constructor.
    + exists "2024-01-21T12:00:00Z", (Sim.noon_march_1 - Datetime.timedelta_days 40),
        (JList []).
      split; [reflexivity|]. split; [exact P1|]. split; [reflexivity|]. right. now exists [].
    + exists "2024-02-25T12:00:00Z", (Sim.noon_march_1 - Datetime.timedelta_days 5),
        (JList [JStr "prod"]).
      split; [reflexivity|]. split; [exact P2|]. split; [reflexivity|]. right. now exists ["prod"].
    + exists "2024-01-26T12:00:00Z", (Sim.noon_march_1 - Datetime.timedelta_days 35),
        (JList [JStr "poc-x"]).
      split; [reflexivity|]. split; [exact P3|]. split; [reflexivity|]. right. now exists ["poc-x"].
Defined.
